(** * Wing Mate: the campaign data pipeline (data_parser.py, data_processor.py,
      batch_repository.py, personnel_resolution_service.py), shallow embedding.

    Python values decoded from JSON are the inductive [json]; a Python [dict]
    is an association list in insertion order (JSON objects have unique keys);
    exceptions are the [exc] tags and a computation that may raise returns a
    [res].  Text handled by the processing code is modelled as ASCII
    [string]s (Python's [lower]/[upper]/[isdigit] are the ASCII versions);
    raw file contents are byte lists and decoded text is a list of code
    points. *)

From Stdlib Require Import String Ascii Strings.Byte ZArith List Bool Lia Sorted Permutation.
Import ListNotations.

Open Scope bool_scope.
Open Scope string_scope.
Set Warnings "-register-all".

(** ** Python exceptions and the error monad *)

Inductive exc : Type :=
  | AttributeError | TypeError | ValueError | KeyError | OSError
  | PermissionError | FileNotFoundError | UnicodeDecodeError | JSONDecodeError
  | RecursionError.

(** [isinstance(e, cls)] for the exception hierarchy used by the code:
    [UnicodeDecodeError] and [JSONDecodeError] are [ValueError]s,
    [PermissionError] and [FileNotFoundError] are [OSError]s. *)
Definition exc_is (e cls : exc) : bool :=
  match cls, e with
  | ValueError, (ValueError | UnicodeDecodeError | JSONDecodeError) => true
  | OSError, (OSError | PermissionError | FileNotFoundError) => true
  | AttributeError, AttributeError | TypeError, TypeError
  | KeyError, KeyError | PermissionError, PermissionError
  | FileNotFoundError, FileNotFoundError
  | UnicodeDecodeError, UnicodeDecodeError
  | JSONDecodeError, JSONDecodeError
  | RecursionError, RecursionError => true
  | _, _ => false
  end.

(** An [except (C1, C2, ...)] clause. *)
Definition catches (clauses : list exc) (e : exc) : bool :=
  existsb (exc_is e) clauses.

Inductive res (A : Type) : Type :=
  | Ok (a : A)
  | Raise (e : exc).
Arguments Ok {A} a.
Arguments Raise {A} e.

Definition bind {A B : Type} (m : res A) (k : A -> res B) : res B :=
  match m with
  | Ok a => k a
  | Raise e => Raise e
  end.

Notation "x <- m ;; k" := (bind m (fun x => k))
  (at level 61, m at next level, right associativity).

(** [try: m except clauses: h] *)
Definition try_except {A : Type} (m : res A) (clauses : list exc) (h : exc -> res A)
  : res A :=
  match m with
  | Ok a => Ok a
  | Raise e => if catches clauses e then h e else Raise e
  end.

(** ** JSON values as Python sees them *)

Inductive json : Type :=
  | JNull
  | JBool (b : bool)
  | JInt (z : Z)
  | JFloat (repr : string)          (** a float, kept as its Python [repr] *)
  | JStr (s : string)
  | JList (l : list json)
  | JObj (kv : list (string * json)).

Definition dict := list (string * json).

(** [d.get(k)]: [None] when the key is absent. *)
Fixpoint dict_lookup (d : dict) (k : string) : option json :=
  match d with
  | [] => None
  | (k', v) :: t => if String.eqb k k' then Some v else dict_lookup t k
  end.

(** [d.get(k, default)] *)
Definition dict_get (d : dict) (k : string) (default : json) : json :=
  match dict_lookup d k with Some v => v | None => default end.

(** [d.values()] *)
Definition dict_values (d : dict) : list json := map snd d.

(** Python truthiness ([bool(x)]). *)
Definition truthy (v : json) : bool :=
  match v with
  | JNull => false
  | JBool b => b
  | JInt z => negb (Z.eqb z 0)
  | JFloat r => negb (String.eqb r "0.0" || String.eqb r "-0.0")
  | JStr s => negb (String.eqb s "")
  | JList l => negb (Nat.eqb (List.length l) 0)
  | JObj kv => negb (Nat.eqb (List.length kv) 0)
  end.

(** [a or b] *)
Definition py_or (a b : json) : json := if truthy a then a else b.

(** ** Characters and strings *)

Definition is_digit (c : ascii) : bool :=
  let n := nat_of_ascii c in (48 <=? n)%nat && (n <=? 57)%nat.

(** [str.isdigit()]: non-empty and every character a digit. *)
Fixpoint all_digits (s : string) : bool :=
  match s with
  | EmptyString => true
  | String c t => is_digit c && all_digits t
  end.

Definition isdigit (s : string) : bool :=
  negb (String.eqb s "") && all_digits s.

(** [str.isspace()] on one character: space, \t \n \v \f \r and \x1c-\x1f. *)
Definition is_space (c : ascii) : bool :=
  let n := nat_of_ascii c in
  (n =? 32)%nat || ((9 <=? n)%nat && (n <=? 13)%nat) || ((28 <=? n)%nat && (n <=? 31)%nat).

Fixpoint lstrip (s : string) : string :=
  match s with
  | String c t => if is_space c then lstrip t else s
  | EmptyString => EmptyString
  end.

Definition rev_string (s : string) : string :=
  string_of_list_ascii (rev (list_ascii_of_string s)).

(** [str.strip()] *)
Definition strip (s : string) : string := rev_string (lstrip (rev_string (lstrip s))).

Definition lower_char (c : ascii) : ascii :=
  let n := nat_of_ascii c in
  if (65 <=? n)%nat && (n <=? 90)%nat then ascii_of_nat (n + 32) else c.

Definition upper_char (c : ascii) : ascii :=
  let n := nat_of_ascii c in
  if (97 <=? n)%nat && (n <=? 122)%nat then ascii_of_nat (n - 32) else c.

Fixpoint map_string (f : ascii -> ascii) (s : string) : string :=
  match s with
  | EmptyString => EmptyString
  | String c t => String (f c) (map_string f t)
  end.

Definition lower (s : string) : string := map_string lower_char s.
Definition upper (s : string) : string := map_string upper_char s.

(** [s.replace(a, b)] for one-character [a] and [b]. *)
Definition replace_char (a b : ascii) (s : string) : string :=
  map_string (fun c => if Ascii.eqb c a then b else c) s.

(** [needle in hay] for strings. *)
Fixpoint contains (needle hay : string) : bool :=
  String.prefix needle hay ||
  match hay with
  | EmptyString => false
  | String _ t => contains needle t
  end.

(** [s.endswith(suf)] *)
Definition endswith (s suf : string) : bool :=
  String.prefix (rev_string suf) (rev_string s).

(** [s[:-n]] for [n <= len(s)] *)
Definition drop_last (n : nat) (s : string) : string :=
  String.substring 0 (String.length s - n) s.

(** [int(s)] for a string of ASCII digits. *)
Fixpoint digits_value_acc (acc : Z) (s : string) : Z :=
  match s with
  | EmptyString => acc
  | String c t => digits_value_acc (acc * 10 + Z.of_nat (nat_of_ascii c - 48)) t
  end.

Definition digits_value (s : string) : Z := digits_value_acc 0 s.

(** Decimal text of a natural number (Python [str] of a non-negative int). *)
Fixpoint digits_of_pos_acc (fuel : nat) (n : Z) (acc : string) : string :=
  match fuel with
  | O => acc
  | S f =>
      let acc' := String (ascii_of_nat (48 + Z.to_nat (n mod 10))) acc in
      if Z.ltb n 10 then acc' else digits_of_pos_acc f (n / 10) acc'
  end.

Definition z_to_string (z : Z) : string :=
  let fuel := S (Z.to_nat (Z.log2 (Z.abs z))) in
  if Z.ltb z 0 then String "-" (digits_of_pos_acc fuel (- z) "")
  else digits_of_pos_acc fuel z "".


(** [str(x)] and [repr(x)] of decoded JSON values. *)
Definition hex_digit (n : nat) : ascii :=
  if (n <? 10)%nat then ascii_of_nat (48 + n) else ascii_of_nat (87 + n).

Definition char_str (c : ascii) : string := String c EmptyString.

Definition dquote : ascii := ascii_of_nat 34.
Definition squote : ascii := ascii_of_nat 39.
Definition backslash : ascii := ascii_of_nat 92.
Definition newline : ascii := ascii_of_nat 10.

(** One character inside the quotes of [repr(s)], quoted with [q]. *)
Definition repr_char (q c : ascii) : string :=
  let n := nat_of_ascii c in
  if Ascii.eqb c backslash then String backslash (char_str backslash)
  else if Ascii.eqb c q then String backslash (char_str q)
  else if (n =? 9)%nat then String backslash "t"
  else if (n =? 10)%nat then String backslash "n"
  else if (n =? 13)%nat then String backslash "r"
  else if (n <? 32)%nat || ((127 <=? n)%nat && (n <=? 160)%nat) || (n =? 173)%nat
  then String backslash (String "x" (String (hex_digit (n / 16)) (char_str (hex_digit (n mod 16)))))
  else char_str c.

Fixpoint has_char (c : ascii) (s : string) : bool :=
  match s with
  | EmptyString => false
  | String d t => Ascii.eqb c d || has_char c t
  end.

(** [repr(s)]: single quotes unless [s] has a single quote and no double quote. *)
Definition repr_string (s : string) : string :=
  let q := if has_char squote s && negb (has_char dquote s) then dquote else squote in
  String q (String.append (String.concat "" (map (repr_char q) (list_ascii_of_string s)))
                          (char_str q)).

Fixpoint py_repr (v : json) : string :=
  match v with
  | JNull => "None"
  | JBool b => if b then "True" else "False"
  | JInt z => z_to_string z
  | JFloat r => r
  | JStr s => repr_string s
  | JList l =>
      "[" ++ (fix go (l : list json) : string :=
                match l with
                | [] => ""
                | [x] => py_repr x
                | x :: t => py_repr x ++ ", " ++ go t
                end) l ++ "]"
  | JObj kv =>
      "{" ++ (fix go (kv : list (string * json)) : string :=
                match kv with
                | [] => ""
                | [(k, x)] => repr_string k ++ ": " ++ py_repr x
                | (k, x) :: t => repr_string k ++ ": " ++ py_repr x ++ ", " ++ go t
                end) kv ++ "}"
  end.

Definition py_str (v : json) : string :=
  match v with
  | JStr s => s
  | _ => py_repr v
  end.

(** ** Python's [list.sort]: a stable sort that only uses [<] on the keys.
    [reverse=True] keeps stability and reverses every comparison. *)
Section StableSort.
Context {A : Type} (lt : A -> A -> bool).

Fixpoint insert_stable (x : A) (l : list A) : list A :=
  match l with
  | [] => [x]
  | y :: t => if lt x y then x :: y :: t else y :: insert_stable x t
  end.

Definition py_sort (l : list A) : list A :=
  fold_left (fun acc x => insert_stable x acc) l [].
End StableSort.

(** Python [<] on strings (code-point lexicographic) and on ints. *)
Definition str_lt (a b : string) : bool := String.ltb a b.

(** Python [<] on pairs: lexicographic, using [==] then [<]. *)
Definition pair_lt {X Y : Type} (eqX ltX : X -> X -> bool) (ltY : Y -> Y -> bool)
  (a b : X * Y) : bool :=
  if eqX (fst a) (fst b) then ltY (snd a) (snd b) else ltX (fst a) (fst b).

(** [sort(key=k)] and [sort(key=k, reverse=True)] *)
Definition sort_by_key {A K : Type} (ltK : K -> K -> bool) (k : A -> K) (l : list A) : list A :=
  py_sort (fun a b => ltK (k a) (k b)) l.

Definition sort_by_key_desc {A K : Type} (ltK : K -> K -> bool) (k : A -> K) (l : list A)
  : list A :=
  py_sort (fun a b => ltK (k b) (k a)) l.

(** ** Dates: [datetime.strptime(s, '%Y%m%d')] on an 8-digit string *)

Definition digit_at (s : string) (i : nat) : Z :=
  match String.get i s with
  | Some c => Z.of_nat (nat_of_ascii c - 48)
  | None => 0
  end.

Definition is_leap (y : Z) : bool :=
  (Z.eqb (y mod 4) 0 && negb (Z.eqb (y mod 100) 0)) || Z.eqb (y mod 400) 0.

Definition days_in_month (y m : Z) : Z :=
  if Z.eqb m 2 then (if is_leap y then 29 else 28)
  else if Z.eqb m 4 || Z.eqb m 6 || Z.eqb m 9 || Z.eqb m 11 then 30
  else 31.

(** [strptime] with [%Y%m%d] on text of 8 ASCII digits: the regex of
    [_strptime] reads 4 year digits, a month in 01-12 and a day in 01-31
    (a one-digit month or day leaves unconverted data, a [ValueError]);
    [datetime] then rejects year 0 and days past the month's end.  [None]
    is the [ValueError]. *)
Definition strptime_ymd (s : string) : option (Z * Z * Z) :=
  let y := (digit_at s 0 * 1000 + digit_at s 1 * 100 + digit_at s 2 * 10 + digit_at s 3)%Z in
  let m := (digit_at s 4 * 10 + digit_at s 5)%Z in
  let d := (digit_at s 6 * 10 + digit_at s 7)%Z in
  if (1 <=? m)%Z && (m <=? 12)%Z && (1 <=? d)%Z && (d <=? 31)%Z
     && (1 <=? y)%Z && (d <=? days_in_month y m)%Z
  then Some (y, m, d) else None.

(** Two-digit zero padded text ([%m], [%d]). *)
Definition pad2 (n : Z) : string :=
  String (ascii_of_nat (48 + Z.to_nat (n / 10)))
         (char_str (ascii_of_nat (48 + Z.to_nat (n mod 10)))).

(** [%Y] as glibc's [strftime] writes it: the year in decimal, four digits
    from year 1000 on, no zero padding below. *)
Definition fmt_year (y : Z) : string := z_to_string y.

(** [date_obj.strftime('%Y-%m-%d')] *)
Definition strftime_dashed (ymd : Z * Z * Z) : string :=
  let '(y, m, d) := ymd in fmt_year y ++ "-" ++ pad2 m ++ "-" ++ pad2 d.

(** [date_obj.strftime('%d/%m/%Y')] *)
Definition strftime_dmy (ymd : Z * Z * Z) : string :=
  let '(y, m, d) := ymd in pad2 d ++ "/" ++ pad2 m ++ "/" ++ fmt_year y.

(** IL2DataProcessor.format_date *)
Definition format_date (yyyymmdd : string) : string :=
  if String.eqb yyyymmdd "" || negb (Nat.eqb (String.length yyyymmdd) 8)
     || negb (isdigit yyyymmdd)
  then yyyymmdd
  else match strptime_ymd yyyymmdd with
       | Some ymd => strftime_dmy ymd
       | None => yyyymmdd
       end.

(** ** IL2DataParser: mission-file resolution *)

(** Case-insensitive prefix match (the [re.IGNORECASE] literal); the rest of
    the text on success. *)
Fixpoint prefix_ci (p s : string) : option string :=
  match p, s with
  | EmptyString, _ => Some s
  | String a p', String b s' =>
      if Ascii.eqb (lower_char a) (lower_char b) then prefix_ci p' s' else None
  | String _ _, EmptyString => None
  end.

Definition rank_alternatives : list string :=
  ["Lieutenant"; "Ltn"; "Fw"; "Obltn"; "Cne"; "S/Lt"; "Sergt"; "Lt"; "Capt"; "Major"; "Maj"].

(** [s*] under [re.IGNORECASE], greedy. *)
Fixpoint skip_s_ci (s : string) : string :=
  match s with
  | String c t => if Ascii.eqb (lower_char c) "s"%char then skip_s_ci t else s
  | EmptyString => EmptyString
  end.

(** The raw pattern text [\\.?\\s*] after the rank: in a raw string the
    regex is a literal backslash, an optional character other than a newline
    ([.?], greedy, then backtracking to the empty choice), a literal
    backslash, then [s*]. *)
Definition rank_tail (r1 : string) : option string :=
  match r1 with
  | String b r2 =>
      if Ascii.eqb b backslash then
        match
          match r2 with
          | String c (String b' r4) =>
              if negb (Ascii.eqb c newline) && Ascii.eqb b' backslash
              then Some (skip_s_ci r4) else None
          | _ => None
          end
        with
        | Some r => Some r
        | None =>
            match r2 with
            | String b' r4 => if Ascii.eqb b' backslash then Some (skip_s_ci r4) else None
            | _ => None
            end
        end
      else None
  | EmptyString => None
  end.

(** [re.match] of [^(?:Lieutenant|...|Maj)\\.?\\s*] (flags IGNORECASE):
    alternatives tried in order; the rest of the text after the match. *)
Fixpoint rank_prefix_match (alts : list string) (s : string) : option string :=
  match alts with
  | [] => None
  | a :: more =>
      match match prefix_ci a s with Some r1 => rank_tail r1 | None => None end with
      | Some r => Some r
      | None => rank_prefix_match more s
      end
  end.

(** [re.sub(r'\\s+', ' ', s)]: every backslash followed by one or more
    [s] becomes one space; [skipping] is set while the [s+] of a match is
    being consumed. *)
Fixpoint sub_backslash_s_from (skipping : bool) (s : string) : string :=
  match s with
  | EmptyString => EmptyString
  | String c t =>
      if skipping && Ascii.eqb c "s"%char then sub_backslash_s_from true t
      else if Ascii.eqb c backslash then
        match t with
        | String c' t' =>
            if Ascii.eqb c' "s"%char then String " " (sub_backslash_s_from true t')
            else String c (sub_backslash_s_from false t)
        | EmptyString => String c EmptyString
        end
      else String c (sub_backslash_s_from false t)
  end.

Definition sub_backslash_s (s : string) : string := sub_backslash_s_from false s.

(** IL2DataParser._clean_pilot_name *)
Definition clean_pilot_name (pilot_name : string) : string :=
  let cleaned :=
    strip (match rank_prefix_match rank_alternatives pilot_name with
           | Some rest => rest
           | None => pilot_name
           end) in
  strip (sub_backslash_s cleaned).

(** IL2DataParser._is_valid_date_string on the value [report.get("date", "") or ""]:
    [bool(d) and len(d) == 8 and d.isdigit()]; [len] of a number raises
    [TypeError], [.isdigit] of a list or dict raises [AttributeError]. *)
Definition is_valid_date_string (d : json) : res bool :=
  if negb (truthy d) then Ok false else
  match d with
  | JStr s => Ok (Nat.eqb (String.length s) 8 && isdigit s)
  | JList l => if Nat.eqb (List.length l) 8 then Raise AttributeError else Ok false
  | JObj kv => if Nat.eqb (List.length kv) 8 then Raise AttributeError else Ok false
  | _ => Raise TypeError
  end.

(** The literal text the compiled pattern [r'\\d{4}-\\d{2}-\\d{2}'] matches:
    a backslash and four [d], a dash, a backslash and two [d], a dash, a
    backslash and two [d]. *)
Definition code_date_regex_text : string :=
  String backslash "dddd-" ++ String backslash "dd-" ++ String backslash "dd".

(** [date_regex.search(name)], [m.group(0)]: the pattern has one possible
    match text. *)
Definition code_date_regex_search (name : string) : option string :=
  if contains code_date_regex_text name then Some code_date_regex_text else None.

Definition tierA (cands : list string) (lower_pilot lower_date : string) : list string :=
  filter (fun f => contains lower_date (lower f)
                   && (String.eqb lower_pilot "" || contains lower_pilot (lower f))) cands.

Definition tierB (cands : list string) (lower_pilot : string) : list string :=
  filter (fun f => contains lower_pilot (lower f)) cands.

Definition tierC (cands : list string) (lower_date : string) : list string :=
  filter (fun f => contains lower_date (lower f)) cands.

Definition tierD (cands : list string) (date_dashed : string) : list string :=
  filter (fun f => match code_date_regex_search f with
                   | Some m => String.eqb m date_dashed
                   | None => false
                   end) cands.

(** IL2DataParser._find_mission_file_matches, over the candidates' file names. *)
Definition find_mission_file_matches (cands : list string) (pilot_name_clean date_dashed : string)
  : list string :=
  let lower_pilot := lower pilot_name_clean in
  let lower_date := lower date_dashed in
  match tierA cands lower_pilot lower_date with
  | (_ :: _) as a => a
  | [] =>
      match (if String.eqb lower_pilot "" then [] else tierB cands lower_pilot) with
      | (_ :: _) as b => b
      | [] =>
          match tierC cands lower_date with
          | (_ :: _) as c => c
          | [] => tierD cands date_dashed
          end
      end
  end.

(** The campaign's MissionData directory as [get_mission_data] sees it. *)
Record mission_dir : Type := {
  md_exists : bool;                       (** [exists() and is_dir()] *)
  md_candidates : list string;            (** [_collect_mission_file_candidates], file names *)
  md_mtime : string -> res Z;             (** [p.stat().st_mtime] *)
  md_load : string -> res (option json)   (** [self.get_json_data(candidate)] *)
}.

Fixpoint mtimes (md : mission_dir) (l : list string) : res (list (Z * string)) :=
  match l with
  | [] => Ok []
  | f :: t => m <- md_mtime md f ;; r <- mtimes md t ;; Ok ((m, f) :: r)
  end.

(** [match_candidates.sort(key=lambda p: p.stat().st_mtime, reverse=True)]
    inside [try ... except OSError]: the keys are computed first and a
    failing [stat] leaves the list as it was. *)
Definition sort_by_mtime_desc (md : mission_dir) (l : list string) : res (list string) :=
  try_except
    (keyed <- mtimes md l ;; Ok (map snd (sort_by_key_desc Z.ltb fst keyed)))
    [OSError] (fun _ => Ok l).

(** The loop over candidates: first one whose payload is a dict. *)
Fixpoint first_dict_candidate (md : mission_dir) (l : list string) : res dict :=
  match l with
  | [] => Ok []
  | c :: t =>
      d <- md_load md c ;;
      match d with
      | Some (JObj kv) => Ok kv
      | _ => first_dict_candidate md t
      end
  end.

(** IL2DataParser.get_mission_data *)
Definition get_mission_data (md : mission_dir) (report : dict) : res dict :=
  if negb (md_exists md) then Ok [] else
  let pilot_name := py_or (py_or (dict_get report "reportPilotName" JNull) (JStr "")) (JStr "") in
  pilot_name_clean <- (match pilot_name with
                       | JStr s => Ok (clean_pilot_name s)
                       | _ => Raise TypeError            (** [re.sub] on a non-string *)
                       end) ;;
  let date := py_or (dict_get report "date" (JStr "")) (JStr "") in
  valid <- is_valid_date_string date ;;
  if negb valid then Ok [] else
  match date with
  | JStr date_str =>
      match strptime_ymd date_str with
      | None => Ok []
      | Some ymd =>
          let date_str_dashed := strftime_dashed ymd in
          let candidates := md_candidates md in
          match candidates with
          | [] => Ok []
          | _ =>
              match find_mission_file_matches candidates pilot_name_clean date_str_dashed with
              | [] => Ok []
              | matches =>
                  sorted <- sort_by_mtime_desc md matches ;;
                  first_dict_candidate md sorted
              end
          end
      end
  | _ => Ok []
  end.

(** ** IL2DataProcessor *)

(** [re.findall(r"^.+$", s, re.MULTILINE)]: the non-empty lines of [s]. *)
Fixpoint split_lines_acc (cur : list ascii) (s : string) : list string :=
  match s with
  | EmptyString => [string_of_list_ascii (rev cur)]
  | String c t =>
      if Ascii.eqb c newline then string_of_list_ascii (rev cur) :: split_lines_acc [] t
      else split_lines_acc (c :: cur) t
  end.

Definition findall_lines (s : string) : list string :=
  filter (fun l => negb (String.eqb l "")) (split_lines_acc [] s).

(** The participants loop over [haReport]. *)
Definition pilots_of_ha_report (ha_report : string) : list string :=
  filter (fun clean => negb (String.eqb clean "")
                       && negb (String.prefix "this mission" (lower clean)
                                || String.prefix "the mission" (lower clean)))
         (map strip (findall_lines ha_report)).

(** The suffix of [s] starting at the first case-insensitive occurrence of [p]. *)
Fixpoint find_ci (p s : string) : option string :=
  match prefix_ci p s with
  | Some _ => Some s
  | None => match s with
            | EmptyString => None
            | String _ t => find_ci p t
            end
  end.

(** [re.search(r"(Weather Report.*?)$", text, re.DOTALL | re.IGNORECASE)],
    [group(1)]: from the first occurrence to the end of the text, the lazy
    [.*?] stopping before a final newline where [$] first matches. *)
Definition weather_search (text : string) : option string :=
  match find_ci "Weather Report" text with
  | None => None
  | Some suffix =>
      if endswith suffix (char_str newline) then Some (drop_last 1 suffix) else Some suffix
  end.

Definition not_available : string := "Não disponível".
Definition no_description : string := "Descrição da missão não encontrada.".
Definition date_sentinel : string := "99999999".

(** Scan of [missionPlanes] for the player's serial, with its [try]:
    [None] when the loop breaks nowhere or [items()] raised
    [AttributeError] (caught, [player_squadron_id] unchanged). *)
Definition squadron_id_from_planes (mission_details : dict) (player_serial : string)
  : option json :=
  match py_or (dict_get mission_details "missionPlanes" (JObj [])) (JObj []) with
  | JObj planes =>
      (fix scan (l : list (string * json)) : option json :=
         match l with
         | [] => None
         | (k, v) :: t =>
             if String.eqb k player_serial then
               Some (match v with JObj vv => dict_get vv "squadronId" JNull | _ => JNull end)
             else scan t
         end) planes
  | _ => None
  end.

(** The body of the [for report in combat_reports] loop for one dict
    [report]: the sort key, the mission entry and the updated
    [player_squadron_id]. *)
Definition process_one_report (md : mission_dir) (player_serial : string)
  (player_squadron_id : json) (report : dict) : res ((string * dict) * json) :=
  let raw_date := py_str (dict_get report "date" (JStr "")) in
  mission_details <- try_except (d <- get_mission_data md report ;; Ok d)
                                [KeyError; TypeError; ValueError; OSError] (fun _ => Ok []) ;;
  let mission_time := py_str (dict_get report "time" (JStr "NA")) in
  let ha_report := py_str (py_or (dict_get report "haReport" JNull) (JStr "")) in
  let pilots_in_mission := if String.eqb ha_report "" then [] else pilots_of_ha_report ha_report in
  let has_details := negb (Nat.eqb (List.length mission_details) 0) in
  let description_text :=
    if has_details
    then py_str (dict_get mission_details "missionDescription" (JStr no_description))
    else no_description in
  let weather_text :=
    if has_details
    then match weather_search description_text with
         | Some w => strip w
         | None => not_available
         end
    else not_available in
  let player_squadron_id' :=
    if truthy player_squadron_id then player_squadron_id
    else match squadron_id_from_planes mission_details player_serial with
         | Some v => v
         | None => player_squadron_id
         end in
  let airfield :=
    match dict_get mission_details "missionHeader" (JObj []) with
    | JObj header => dict_get header "airfield" (JStr "NA")
    | _ => JStr "NA"
    end in
  let mission_entry : dict :=
    [("date", if String.eqb raw_date "" then dict_get report "date" (JStr "NA")
              else JStr (format_date raw_date));
     ("time", JStr mission_time);
     ("aircraft", dict_get report "type" (JStr "NA"));
     ("duty", dict_get report "duty" (JStr "NA"));
     ("locality", dict_get report "locality" (JStr "NA"));
     ("airfield", airfield);
     ("pilots", JList (map JStr pilots_in_mission));
     ("weather", JStr weather_text);
     ("description", JStr description_text);
     ("haReport", dict_get report "haReport" (JStr ""))] in
  Ok ((if String.eqb raw_date "" then date_sentinel else raw_date, mission_entry),
      player_squadron_id').

(** The key of [missions_with_key.sort(key=lambda t: (t[0] or "99999999", t[0]))]. *)
Definition mission_sort_key (t : string * dict) : string * string :=
  (if String.eqb (fst t) "" then date_sentinel else fst t, fst t).

Definition mission_key_lt : string * string -> string * string -> bool :=
  pair_lt String.eqb str_lt str_lt.

Fixpoint missions_loop (md : mission_dir) (player_serial : string) (psid : json)
  (reports : list json) : res (list (string * dict) * json) :=
  match reports with
  | [] => Ok ([], psid)
  | JObj report :: rest =>
      r <- process_one_report md player_serial psid report ;;
      let '(item, psid') := r in
      out <- missions_loop md player_serial psid' rest ;;
      let '(items, psid'') := out in
      Ok (item :: items, psid'')
  | _ :: rest => missions_loop md player_serial psid rest      (** not a dict: [continue] *)
  end.

(** IL2DataProcessor.process_missions_data: the missions and
    [player_squadron_id] ([JNull] for [None]). *)
Definition process_missions_data (md : mission_dir) (combat_reports : list json)
  (player_serial : string) : res (list dict * json) :=
  out <- missions_loop md player_serial JNull combat_reports ;;
  let '(missions_with_key, player_squadron_id) := out in
  Ok (map snd (sort_by_key mission_key_lt mission_sort_key missions_with_key),
      player_squadron_id).

(** [int(v)] where the code calls it: on a value whose [str] is a digit
    string (a [str] of digits or a non-negative [int]), its decimal value. *)
Definition int_of_digit_value (v : json) : Z := digits_value (py_str v).

(** The [victories] count of [process_squadron_data]. *)
Definition squadron_victories (v : json) : Z :=
  match v with
  | JList l => Z.of_nat (List.length l)
  | JObj kv => Z.of_nat (List.length kv)
  | _ => if isdigit (py_str v) then int_of_digit_value v else 0
  end.

(** The [missionFlown] count of [process_squadron_data]: an [int] (a [bool]
    is one) goes through [int()], else a digit string is parsed, else 0. *)
Definition squadron_missions (m : json) : Z :=
  match m with
  | JInt z => z
  | JBool b => if b then 1 else 0
  | _ => if isdigit (py_str m) then int_of_digit_value m else 0
  end.

Definition status_active : string := "Ativo".
Definition status_kia : string := "Morto em Combate (KIA)".
Definition status_wia : string := "Gravemente Ferido (WIA)".
Definition status_pow : string := "Capturado (POW)".
Definition status_mia : string := "Desaparecido em Combate (MIA)".
Definition status_unknown : string := "Desconhecido".

Definition status_of_int (z : Z) : string :=
  if Z.eqb z 0 || Z.eqb z 1 then status_active
  else if Z.eqb z 2 then status_kia
  else if Z.eqb z 3 then status_wia
  else if Z.eqb z 4 then status_pow
  else if Z.eqb z 5 then status_mia
  else status_unknown.

(** IL2DataProcessor.get_pilot_status: [dict.get] on the int keys 0..5;
    [True]/[False] and integral floats hash as the equal int, strings and
    [None] are absent keys, lists and dicts are unhashable. *)
Definition get_pilot_status (code : json) : res string :=
  match code with
  | JInt z => Ok (status_of_int z)
  | JBool b => Ok status_active
  | JFloat r =>
      Ok (if String.eqb r "0.0" || String.eqb r "-0.0" || String.eqb r "1.0" then status_active
          else if String.eqb r "2.0" then status_kia
          else if String.eqb r "3.0" then status_wia
          else if String.eqb r "4.0" then status_pow
          else if String.eqb r "5.0" then status_mia
          else status_unknown)
  | JNull | JStr _ => Ok status_unknown
  | JList _ | JObj _ => Raise TypeError
  end.

Definition member_missions (m : dict) : Z :=
  match dict_lookup m "missions_flown" with Some (JInt z) => z | _ => 0 end.

Definition member_victories (m : dict) : Z :=
  match dict_lookup m "victories" with Some (JInt z) => z | _ => 0 end.

Definition squadron_sort_key (m : dict) : Z * Z := (member_missions m, member_victories m).

Definition squadron_key_lt : Z * Z -> Z * Z -> bool := pair_lt Z.eqb Z.ltb Z.ltb.

(** One member of [squadronMemberCollection]: [p.get] on a non-dict raises
    [AttributeError], which the [except (TypeError, ValueError)] lets through. *)
Definition squadron_member (p : json) : res dict :=
  match p with
  | JObj pd =>
      let v_count := squadron_victories (dict_get pd "victories" (JList [])) in
      let m_flown := squadron_missions (dict_get pd "missionFlown" (JInt 0)) in
      status <- get_pilot_status (dict_get pd "pilotActiveStatus" (JInt (-1))) ;;
      Ok [("name", dict_get pd "name" (JStr "NA"));
          ("rank", dict_get pd "rank" (JStr "NA"));
          ("victories", JInt v_count);
          ("missions_flown", JInt m_flown);
          ("status", JStr status)]
  | _ => Raise AttributeError
  end.

Fixpoint map_res {A B : Type} (f : A -> res B) (l : list A) : res (list B) :=
  match l with
  | [] => Ok []
  | x :: t => y <- f x ;; ys <- map_res f t ;; Ok (y :: ys)
  end.

(** IL2DataProcessor.process_squadron_data *)
Definition process_squadron_data (squadron_personnel : json) : res (list dict) :=
  if negb (truthy squadron_personnel) then Ok [] else
  match squadron_personnel with
  | JObj sp =>
      match py_or (dict_get sp "squadronMemberCollection" (JObj [])) (JObj []) with
      | JObj coll =>
          result <- map_res squadron_member (dict_values coll) ;;
          Ok (sort_by_key_desc squadron_key_lt squadron_sort_key result)
      | _ => Raise AttributeError                       (** [.values()] of a non-dict *)
      end
  | _ => Raise AttributeError                           (** [.get] of a non-dict *)
  end.

(** The [victories] count of [process_aces_data]: a list counts its
    elements; an [int] (a [bool] is one) or [str] whose [str] is a digit
    string is parsed; anything else is 0. *)
Definition ace_victories (v : json) : Z :=
  match v with
  | JList l => Z.of_nat (List.length l)
  | JInt _ | JBool _ | JStr _ => if isdigit (py_str v) then int_of_digit_value v else 0
  | _ => 0
  end.

Definition ace_entry (ace : json) : res dict :=
  match ace with
  | JObj a =>
      Ok [("name", dict_get a "name" (JStr "NA"));
          ("rank", dict_get a "rank" (JStr "NA"));
          ("country", dict_get a "country" (JStr ""));
          ("victories", JInt (ace_victories (dict_get a "victories" (JList []))));
          ("missions_flown", dict_get a "missionFlown" (JInt 0))]
  | _ => Raise AttributeError
  end.

(** IL2DataProcessor.process_aces_data *)
Definition process_aces_data (aces_raw : list json) : res (list dict) :=
  match aces_raw with
  | [] => Ok []
  | _ => out <- map_res ace_entry aces_raw ;;
         Ok (sort_by_key_desc Z.ltb member_victories out)
  end.

(** IL2DataParser.get_campaign_aces, on the payload [get_json_data] returned. *)
Definition get_campaign_aces (data : option json) : list json :=
  match data with
  | None => []
  | Some d =>
      if negb (truthy d) then [] else
      match d with
      | JList l => l
      | JObj kv =>
          match dict_lookup kv "aces" with
          | Some (JList l) => l
          | _ => match dict_lookup kv "acesInCampaign" with
                 | Some (JObj m) => dict_values m
                 | _ => []
                 end
          end
      | _ => []
      end
  end.

(** ** IL2DataParser: JSON file loading with encoding fallback *)

(** A file as [_load_json_file] finds it. *)
Inductive file_state : Type :=
  | FMissing                   (** [exists()] is false *)
  | FExistsRaises              (** [exists()] raises [PermissionError] (its
                                   [stat] is refused; Python <= 3.12) *)
  | FUnreadable                (** exists, [open] raises [PermissionError] *)
  | FBytes (bs : list byte).   (** readable, with these contents *)

Definition bval (b : byte) : Z := Z.of_N (Byte.to_N b).

Definition in_range (lo hi : Z) (b : byte) : bool := (lo <=? bval b)%Z && (bval b <=? hi)%Z.

Definition cont (b : byte) : bool := in_range 128 191 b.

(** One step of CPython's UTF-8 decoder: the decoded code point, or [None]
    for an ill-formed sequence, and the rest of the input.  On an
    ill-formed sequence only its maximal valid prefix is consumed (at least
    one byte), as the [replace] handler needs. *)
Definition utf8_step (bs : list byte) : option Z * list byte :=
  match bs with
  | [] => (None, [])
  | b0 :: r0 =>
      let v0 := bval b0 in
      if (v0 <? 128)%Z then (Some v0, r0)
      else if in_range 194 223 b0 then
        match r0 with
        | b1 :: r1 => if cont b1 then (Some ((v0 - 192) * 64 + (bval b1 - 128))%Z, r1)
                      else (None, r0)
        | [] => (None, r0)
        end
      else if in_range 224 239 b0 then
        let lo1 := (if (v0 =? 224)%Z then 160 else 128)%Z in
        let hi1 := (if (v0 =? 237)%Z then 159 else 191)%Z in
        match r0 with
        | b1 :: r1 =>
            if in_range lo1 hi1 b1 then
              match r1 with
              | b2 :: r2 =>
                  if cont b2 then
                    (Some ((v0 - 224) * 4096 + (bval b1 - 128) * 64 + (bval b2 - 128))%Z, r2)
                  else (None, r1)
              | [] => (None, r1)
              end
            else (None, r0)
        | [] => (None, r0)
        end
      else if in_range 240 244 b0 then
        let lo1 := (if (v0 =? 240)%Z then 144 else 128)%Z in
        let hi1 := (if (v0 =? 244)%Z then 143 else 191)%Z in
        match r0 with
        | b1 :: r1 =>
            if in_range lo1 hi1 b1 then
              match r1 with
              | b2 :: r2 =>
                  if cont b2 then
                    match r2 with
                    | b3 :: r3 =>
                        if cont b3 then
                          (Some ((v0 - 240) * 262144 + (bval b1 - 128) * 4096
                                 + (bval b2 - 128) * 64 + (bval b3 - 128))%Z, r3)
                        else (None, r2)
                    | [] => (None, r2)
                    end
                  else (None, r1)
              | [] => (None, r1)
              end
            else (None, r0)
        | [] => (None, r0)
        end
      else (None, r0)
  end.

(** [bytes.decode('utf-8')] ([strict]): [None] is the [UnicodeDecodeError]. *)
Fixpoint utf8_decode_strict_fuel (fuel : nat) (bs : list byte) : option (list Z) :=
  match fuel, bs with
  | _, [] => Some []
  | O, _ => None
  | S f, _ =>
      match utf8_step bs with
      | (Some cp, rest) =>
          match utf8_decode_strict_fuel f rest with
          | Some t => Some (cp :: t)
          | None => None
          end
      | (None, _) => None
      end
  end.

Definition utf8_decode_strict (bs : list byte) : option (list Z) :=
  utf8_decode_strict_fuel (List.length bs) bs.

(** [bytes.decode('utf-8', errors='replace')]: U+FFFD per maximal ill-formed part. *)
Fixpoint utf8_decode_replace_fuel (fuel : nat) (bs : list byte) : list Z :=
  match fuel, bs with
  | _, [] => []
  | O, _ => []
  | S f, _ =>
      let '(r, rest) := utf8_step bs in
      match r with
      | Some cp => cp :: utf8_decode_replace_fuel f rest
      | None => 65533%Z :: utf8_decode_replace_fuel f rest
      end
  end.

Definition utf8_decode_replace (bs : list byte) : list Z :=
  utf8_decode_replace_fuel (List.length bs) bs.

(** [bytes.decode('latin-1')]: every byte is its code point. *)
Definition latin1_decode (bs : list byte) : list Z := map bval bs.

(** Text-mode reading translates [\r\n] and a lone [\r] to [\n]. *)
Fixpoint universal_newlines (t : list Z) : list Z :=
  match t with
  | [] => []
  | 13%Z :: 10%Z :: r => 10%Z :: universal_newlines r
  | 13%Z :: r => 10%Z :: universal_newlines r
  | c :: r => c :: universal_newlines r
  end.

Section Loader.
(** [json.loads] of the standard library on decoded text: a malformed
    document raises [JSONDecodeError]; it may also raise a plain
    [ValueError] (an int literal over the digit limit) or [RecursionError]
    (too deep nesting). *)
Variable json_loads : list Z -> res json.
(** The file system, by path. *)
Variable fs : string -> file_state.
(** [Path.resolve()]. *)
Variable resolve : string -> res string.

(** One attempt of [_load_json_file] on a readable file:
    [try: data = ...; return data  except json.JSONDecodeError: <next>];
    any other exception escapes. *)
Definition load_attempt (r : res json) (next : res (option json)) : res (option json) :=
  match r with
  | Ok v => Ok (Some v)
  | Raise e => if catches [JSONDecodeError] e then next else Raise e
  end.

(** IL2DataParser._load_json_file.  [exists()] is outside every [try].
    Attempts 1 and 2 catch only [JSONDecodeError] and the [OSError]s of
    [open] (giving [None]); a [UnicodeDecodeError] raised while reading in
    attempt 1 escapes, as does any exception of [json.load] other than
    [JSONDecodeError].  Attempt 3 catches [OSError] and [JSONDecodeError]. *)
Definition load_json_file (path : string) : res (option json) :=
  match fs path with
  | FExistsRaises => Raise PermissionError
  | FMissing => Ok None
  | FUnreadable => Ok None
  | FBytes bs =>
      load_attempt
        (match utf8_decode_strict bs with
         | None => Raise UnicodeDecodeError
         | Some text => json_loads (universal_newlines text)
         end)
        (load_attempt (json_loads (universal_newlines (latin1_decode bs)))
           (match json_loads (universal_newlines (utf8_decode_replace bs)) with
            | Ok v => Ok (Some v)
            | Raise e => if catches [OSError; JSONDecodeError] e then Ok None else Raise e
            end))
  end.

(** IL2DataParser.get_json_data.  The [lru_cache] of
    [_get_json_data_cached] keeps returned values only, so on a file
    system that does not change a call returns what [load_json_file]
    computes on the resolved path; exceptions are not cached. *)
Definition get_json_data (path : string) : res (option json) :=
  try_except (resolved <- resolve path ;; load_json_file resolved)
             [TypeError; ValueError; OSError]
             (fun _ => load_json_file path).
End Loader.

(** ** JsonBatchRepository *)

(** [d[k] = v] on a dict: an existing key keeps its position. *)
Fixpoint dict_set {V : Type} (d : list (string * V)) (k : string) (v : V) : list (string * V) :=
  match d with
  | [] => [(k, v)]
  | (k', v') :: t => if String.eqb k k' then (k, v) :: t else (k', v') :: dict_set t k v
  end.

(** Modelled from the spec: IL2DataParser.get_json_many, which the sources
    call but do not contain ("applies [load] per path"): the dict
    [{p: self.get_json_data(p) for p in paths}], built in order. *)
Fixpoint get_json_many_acc (load : string -> res (option json))
  (acc : list (string * option json)) (paths : list string)
  : res (list (string * option json)) :=
  match paths with
  | [] => Ok acc
  | p :: t => v <- load p ;; get_json_many_acc load (dict_set acc p v) t
  end.

Definition get_json_many (load : string -> res (option json)) (paths : list string)
  : res (list (string * option json)) :=
  get_json_many_acc load [] paths.

Record BatchReadStats : Type := { requested : nat; loaded : nat }.

Definition count_loaded (payload : list (string * option json)) : nat :=
  List.length (filter (fun kv => match snd kv with Some _ => true | None => false end) payload).

(** JsonBatchRepository.load_many, over the parser's loader. *)
Definition load_many (load : string -> res (option json)) (paths : list string)
  : res (list (string * option json) * BatchReadStats) :=
  let path_list := paths in
  payload <- get_json_many load path_list ;;
  Ok (payload, {| requested := List.length path_list; loaded := count_loaded payload |}).

(** JsonBatchRepository.resolve_many *)
Fixpoint resolve_many {B : Type} (resolver : string -> json -> res (option B))
  (loaded_payloads : list (string * option json)) : res (list B) :=
  match loaded_payloads with
  | [] => Ok []
  | (_, None) :: t => resolve_many resolver t
  | (path, Some payload) :: t =>
      item <- resolver path payload ;;
      rest <- resolve_many resolver t ;;
      Ok (match item with Some x => x :: rest | None => rest end)
  end.

(** ** PersonnelResolutionService *)

Record PersonnelResolutionResult : Type := {
  country_code : string;
  display_name : string;
  earned_medal_ids : list string      (** a frozenset: no duplicates, order irrelevant *)
}.

(** [set.add] *)
Definition set_add (x : string) (s : list string) : list string :=
  if existsb (String.eqb x) s then s else s ++ [x].

(** PersonnelResolutionService._map_country_to_folder_and_label *)
Definition map_country_to_folder_and_label (country : string) : string * string :=
  let c := upper (strip country) in
  let is_in l := existsb (String.eqb c) l in
  if is_in ["GERMANY"; "GER"; "DE"; "DEU"; "ALEMANHA"; "ALLEMAGNE"; "DEUTSCHLAND"]
  then ("GERMANY", "Germany")
  else if is_in ["FRANCE"; "FR"; "FRA"] then ("FRANCE", "France")
  else if is_in ["BRITAIN"; "UK"; "GB"; "GBR"; "UNITED KINGDOM"; "BRIT"] then ("BRITAIN", "Britain")
  else if is_in ["BELGIAN"; "BELGIUM"; "BE"; "BEL"] then ("BELGIAN", "Belgian")
  else if is_in ["USA"; "US"; "UNITED STATES"; "UNITED STATES OF AMERICA"] then ("USA", "USA")
  else ("GERMANY", "Germany").

(** [str(x or "").strip()] of a field. *)
Definition field_text (d : dict) (k : string) : string :=
  strip (py_str (py_or (dict_get d k (JStr "")) (JStr ""))).

(** The body of the [for member in coll.values()] loop of [_resolve_member]
    with its [try]: a non-dict member raises [AttributeError], caught, and
    is skipped. *)
Fixpoint scan_members (pilot_name_norm : string) (members : list json)
  : option (string * string * json) :=
  match members with
  | [] => None
  | JObj m :: t =>
      let name := lower (field_text m "name") in
      if negb (String.eqb name pilot_name_norm) then scan_members pilot_name_norm t
      else Some (upper (field_text m "country"), name,
                 py_or (dict_get m "medals" (JList [])) (JList []))
  | _ :: t => scan_members pilot_name_norm t
  end.

(** [_resolve_member]: [coll.values()] of a truthy non-dict raises
    [AttributeError] outside the per-member [try]. *)
Definition resolve_member (pilot_name_norm : string) (_path : string) (payload : json)
  : res (option (string * string * json)) :=
  match payload with
  | JObj p =>
      match py_or (dict_get p "squadronMemberCollection" (JObj [])) (JObj []) with
      | JObj coll => Ok (scan_members pilot_name_norm (dict_values coll))
      | _ => Raise AttributeError
      end
  | _ => Ok None
  end.

(** [for medal in medals]: iterating a dict gives its keys, a string its
    characters; iterating a number or [True] raises [TypeError]. *)
Definition py_iter (v : json) : res (list json) :=
  match v with
  | JList l => Ok l
  | JObj kv => Ok (map (fun kv => JStr (fst kv)) kv)
  | JStr s => Ok (map (fun c => JStr (char_str c)) (list_ascii_of_string s))
  | _ => Raise TypeError
  end.

(** The medal loop: the ids collected, and the exception that stopped it
    (a non-dict medal raises [AttributeError] on [.get]). *)
Fixpoint medal_loop (medals : list json) (earned : list string) : list string * option exc :=
  match medals with
  | [] => (earned, None)
  | JObj md :: t =>
      let img := field_text md "medalImage" in
      if negb (String.eqb img "") then
        let medal_id := if endswith (lower img) ".png" then drop_last 4 img else img in
        medal_loop t (set_add medal_id earned)
      else
        let medal_name := field_text md "medalName" in
        if negb (String.eqb medal_name "") then
          medal_loop t (set_add (replace_char " " "_" (lower medal_name)) earned)
        else medal_loop t earned
  | _ :: _ => (earned, Some AttributeError)
  end.

(** The Personnel directory of the campaign. *)
Record personnel_dir : Type := {
  pd_exists : bool;
  pd_files : list string           (** [personnel_dir.glob("*.json")] *)
}.

(** PersonnelResolutionService.resolve; [load] is the parser's
    [get_json_data].  Every exception inside the [try] is caught by
    [except Exception] and the result built from what was resolved so far. *)
Definition resolve_personnel (load : string -> res (option json)) (pd : personnel_dir)
  (campaign pilot_name : string) : PersonnelResolutionResult :=
  let pilot_name_norm := lower (strip pilot_name) in
  let campaign_norm := strip campaign in
  let default := {| country_code := "GERMANY"; display_name := "Germany";
                    earned_medal_ids := [] |} in
  if String.eqb pilot_name_norm "" || String.eqb campaign_norm "" then default
  else if negb (pd_exists pd) then default
  else
    let personnel_files := py_sort str_lt (pd_files pd) in
    match load_many load personnel_files with
    | Raise _ => default
    | Ok (loaded_payloads, _) =>
        match resolve_many (resolve_member pilot_name_norm) loaded_payloads with
        | Raise _ => default
        | Ok [] => default
        | Ok ((country, _, medals) :: _) =>
            let '(code, label) := map_country_to_folder_and_label country in
            let ids := match py_iter medals with
                       | Ok ms => fst (medal_loop ms [])
                       | Raise _ => []
                       end in
            {| country_code := code; display_name := label; earned_medal_ids := ids |}
        end
    end.

(** ** More of IL2DataParser *)

(** The dedup loop of [_collect_mission_file_candidates]: a path is kept
    when its resolved text (its own text when [resolve()] raises [OSError])
    has not been seen. *)
Fixpoint dedup_candidates (resolve : string -> res string) (seen : list string)
  (ps : list string) : res (list string) :=
  match ps with
  | [] => Ok []
  | p :: t =>
      resolved <- try_except (resolve p) [OSError] (fun _ => Ok p) ;;
      if existsb (String.eqb resolved) seen then dedup_candidates resolve seen t
      else rest <- dedup_candidates resolve (resolved :: seen) t ;; Ok (p :: rest)
  end.

(** IL2DataParser._collect_mission_file_candidates: the three globs
    ([*MissionData.json], [*.MissionData.json], [*.json]) concatenated and
    deduplicated, all inside [try ... except OSError]. *)
Definition collect_mission_file_candidates (glob1 glob2 glob3 : res (list string))
  (resolve : string -> res string) : res (list string) :=
  try_except
    (c1 <- glob1 ;; c2 <- glob2 ;; c3 <- glob3 ;;
     dedup_candidates resolve [] (c1 ++ c2 ++ c3)%list)
    [OSError] (fun _ => Ok []).

(** The CombatReports folder of one serial as [get_combat_reports] sees it. *)
Record reports_dir : Type := {
  rd_exists : res bool;             (** [exists() and is_dir()], outside any [try];
                                        [exists()] may raise [PermissionError] *)
  rd_files : list string;           (** [reports_path.glob('*.json')] *)
  rd_mtime : string -> res Z        (** [report_file.stat().st_mtime] *)
}.

(** The loading loop of [get_combat_reports]: the dict payloads, in order. *)
Fixpoint load_reports (load : string -> res (option json)) (files : list string)
  : res (list dict) :=
  match files with
  | [] => Ok []
  | f :: t =>
      report_data <- load f ;;
      rest <- load_reports load t ;;
      Ok (match report_data with Some (JObj kv) => kv :: rest | _ => rest end)
  end.

(** IL2DataParser.get_combat_reports; [load] is [get_json_data].  A failing
    [stat] counts as mtime 0; the files are sorted by mtime, newest first
    ([sort(key=lambda x: x[0], reverse=True)], stable). *)
Definition get_combat_reports (load : string -> res (option json)) (rd : reports_dir)
  : res (list dict) :=
  ex <- rd_exists rd ;;
  if negb ex then Ok [] else
  files <- map_res (fun f => mtime <- try_except (rd_mtime rd f) [OSError] (fun _ => Ok 0%Z) ;;
                             Ok (mtime, f)) (rd_files rd) ;;
  load_reports load (map snd (sort_by_key_desc Z.ltb fst files)).

(** IL2DataParser.get_campaigns: [campaigns_exists] is
    [self.campaigns_path.exists()], evaluated before the [try] (it may
    raise [PermissionError], Python <= 3.12); [entries] is [iterdir()] as
    (name, [is_dir()]) pairs, or the [OSError] listing raised. *)
Definition get_campaigns (campaigns_exists : res bool) (entries : res (list (string * bool)))
  : res (list string) :=
  ex <- campaigns_exists ;;
  if negb ex then Ok [] else
  try_except (es <- entries ;; Ok (py_sort str_lt (map fst (filter snd es))))
             [OSError] (fun _ => Ok []).

(** ** More of IL2DataProcessor *)

Definition is_obj (v : json) : bool := match v with JObj _ => true | _ => false end.

(** IL2DataProcessor.process_pilot_data: [.get] on a non-dict
    [campaign_info] raises [AttributeError], caught, and the defaults are
    returned. *)
Definition process_pilot_data (campaign_info : json) (combat_reports : list json) : dict :=
  match campaign_info with
  | JObj ci =>
      let pilot_name :=
        py_or (py_or (py_or (dict_get ci "referencePlayerName" JNull)
                            (dict_get ci "playerName" JNull))
                     (dict_get ci "name" JNull)) (JStr "NA") in
      let squadron_name :=
        py_or (dict_get ci "referencePlayerSquadronName" JNull) (dict_get ci "playerSquadron" JNull) in
      let squadron_name :=
        if truthy squadron_name then squadron_name
        else match find (fun r => match r with
                                  | JObj d => truthy (dict_get d "squadron" JNull)
                                  | _ => false
                                  end) combat_reports with
             | Some (JObj d) => dict_get d "squadron" JNull
             | _ => squadron_name
             end in
      [("name", pilot_name);
       ("squadron", py_or squadron_name (JStr "NA"));
       ("total_missions", JInt (Z.of_nat (List.length (filter is_obj combat_reports))))]
  | _ => [("name", JStr "NA"); ("squadron", JStr "NA"); ("total_missions", JInt 0)]
  end.

(** What [process_campaign] asks the parser for, as the parser returns it. *)
Record campaign_source : Type := {
  cs_campaign_info : res json;                     (** [get_campaign_info(name)] *)
  cs_combat_reports : string -> res (list dict);   (** [get_combat_reports(name, serial)] *)
  cs_mission_dir : mission_dir;                    (** for [get_mission_data] *)
  cs_squadron_personnel : json -> res json;        (** [get_squadron_personnel(name, id)] *)
  cs_aces : res (list json)                        (** [get_campaign_aces(name)] *)
}.

(** IL2DataProcessor.process_campaign; [{}] is the empty dict. *)
Definition process_campaign (src : campaign_source) : res dict :=
  campaign_info <- cs_campaign_info src ;;
  if negb (truthy campaign_info) then Ok [] else
  match campaign_info with
  | JObj ci =>
      let player_serial := py_str (dict_get ci "referencePlayerSerialNumber" (JStr "")) in
      combat_reports <- cs_combat_reports src player_serial ;;
      out <- process_missions_data (cs_mission_dir src) (map JObj combat_reports) player_serial ;;
      let '(missions_data, player_squadron_id) := out in
      let pilot_data := process_pilot_data campaign_info (map JObj combat_reports) in
      squadron_data <- (if truthy player_squadron_id
                        then sp <- cs_squadron_personnel src player_squadron_id ;;
                             process_squadron_data sp
                        else Ok []) ;;
      aces_raw <- cs_aces src ;;
      aces_data <- process_aces_data aces_raw ;;
      Ok [("pilot", JObj pilot_data);
          ("missions", JList (map JObj missions_data));
          ("squadron", JList (map JObj squadron_data));
          ("aces", JList (map JObj aces_data))]
  | _ => Raise AttributeError                          (** [.get] of a non-dict *)
  end.

(** ** Spec-side definitions *)

(** Text of ten characters shaped [\d{4}-\d{2}-\d{2}]. *)
Definition is_date_shape (s : string) : bool :=
  match list_ascii_of_string s with
  | [y1; y2; y3; y4; d1; m1; m2; d2; a1; a2] =>
      forallb is_digit [y1; y2; y3; y4; m1; m2; a1; a2]
      && Ascii.eqb d1 "-"%char && Ascii.eqb d2 "-"%char
  | _ => false
  end.

(** The leftmost substring of [s] matching [\d{4}-\d{2}-\d{2}], as the
    spec's Tier D reads it. *)
Fixpoint embedded_date (s : string) : option string :=
  if is_date_shape (String.substring 0 10 s) then Some (String.substring 0 10 s)
  else match s with
       | EmptyString => None
       | String _ t => embedded_date t
       end.

(** The key the spec gives a combat report: its [date] text, with the
    sentinel when it is empty. *)
Definition report_sort_key (report : dict) : string :=
  let raw := py_str (dict_get report "date" (JStr "")) in
  if String.eqb raw "" then date_sentinel else raw.

Fixpoint dict_reports (reports : list json) : list dict :=
  match reports with
  | [] => []
  | JObj r :: t => r :: dict_reports t
  | _ :: t => dict_reports t
  end.

(** ** Concrete inputs *)

Definition schmidt_files : list string := ["19180101_SchmidtA.json"; "19180101_Other.json"].

Definition schmidt_dir : mission_dir := {|
  md_exists := true;
  md_candidates := schmidt_files;
  md_mtime := fun _ => Ok 0%Z;
  md_load := fun f => if String.eqb f "19180101_SchmidtA.json"
                      then Ok (Some (JObj [("missionDescription", JStr "Schmidt A")]))
                      else Ok (Some (JObj [("missionDescription", JStr "Other")]))
|}.

Definition schmidt_report : dict := [("reportPilotName", JStr "Schmidt"); ("date", JStr "19180101")].

(** A campaign without a MissionData directory. *)
Definition no_mission_dir : mission_dir := {|
  md_exists := false; md_candidates := []; md_mtime := fun _ => Ok 0%Z;
  md_load := fun _ => Ok None
|}.

Definition dated_reports : list json :=
  [JObj [("date", JStr "19180101")]; JObj [("date", JStr "")]; JObj [("date", JStr "19171231")]].

(** A date that is not YYYYMMDD next to a valid one. *)
Definition dashed_date_reports : list json :=
  [JObj [("date", JStr "19180101")]; JObj [("date", JStr "1918-01-02")]].

Definition mission_dates (r : res (list dict * json)) : list json :=
  match r with
  | Ok (missions, _) => map (fun m => dict_get m "date" JNull) missions
  | Raise _ => []
  end.




(** The ace lists of the examples: victories [1,2,3] and [1], in both orders. *)
Definition aces_3_1 : list json :=
  [JObj [("victories", JList [JInt 1; JInt 2; JInt 3])]; JObj [("victories", JList [JInt 1])]].

Definition aces_1_3 : list json :=
  [JObj [("victories", JList [JInt 1])]; JObj [("victories", JList [JInt 1; JInt 2; JInt 3])]].

Definition victory_counts (r : res (list dict)) : list json :=
  match r with
  | Ok l => map (fun m => dict_get m "victories" JNull) l
  | Raise _ => []
  end.

(** A combat report whose [date] is a list of eight strings. *)
Definition list_date_reports : list json :=
  [JObj [("date", JList (repeat (JStr "1") 8))]].

(** [{"n":"\xe9"}] written in Latin-1: the byte E9 is not UTF-8. *)
Definition latin1_json_bytes : list byte :=
  [x7b; x22; x6e; x22; x3a; x22; xe9; x22; x7d].

(** A file system holding that file only. *)
Definition legacy_fs (p : string) : file_state :=
  if String.eqb p "legacy.json" then FBytes latin1_json_bytes else FMissing.

(** [Path.resolve()] on paths that resolve to themselves. *)
Definition ok_resolve (p : string) : res string := Ok p.


(** Two readable files holding [{}]; anything else is missing. *)
Definition batch_fs (p : string) : file_state :=
  if String.eqb p "a.json" || String.eqb p "b.json" then FBytes [x7b; x7d] else FMissing.


(** The medal id the spec describes: the trimmed [medalImage] without a
    trailing ".png" (in any case) when there is one, else the lower-cased,
    space-to-underscore [medalName], else none. *)
Definition medal_id_spec (md : dict) : option string :=
  let img := field_text md "medalImage" in
  if negb (String.eqb img "") then
    Some (if endswith (lower img) ".png" then drop_last 4 img else img)
  else
    let name := field_text md "medalName" in
    if negb (String.eqb name "") then Some (replace_char " " "_" (lower name)) else None.

(** The member objects of a collection, in order. *)
Fixpoint member_dicts (l : list json) : list dict :=
  match l with
  | [] => []
  | JObj m :: t => m :: member_dicts t
  | _ :: t => member_dicts t
  end.

(** The first member, over the files in the given order and the members of
    each file in map order, whose trimmed lower-cased name is [norm]. *)
Fixpoint first_member_match (load : string -> res (option json)) (norm : string)
  (files : list string) : option dict :=
  match files with
  | [] => None
  | f :: t =>
      match load f with
      | Ok (Some (JObj kv)) =>
          match py_or (dict_get kv "squadronMemberCollection" (JObj [])) (JObj []) with
          | JObj coll =>
              match find (fun m => String.eqb (lower (field_text m "name")) norm)
                         (member_dicts (dict_values coll)) with
              | Some m => Some m
              | None => first_member_match load norm t
              end
          | _ => first_member_match load norm t
          end
      | _ => first_member_match load norm t
      end
  end.

(** The payload a load leaves in the batch dict. *)
Definition payload_of (load : string -> res (option json)) (p : string) : option json :=
  match load p with Ok v => v | Raise _ => None end.

Definition personnel_a : json :=
  JObj [("squadronMemberCollection",
         JObj [("1", JObj [("name", JStr "Max Other"); ("country", JStr "DE")])])].

Definition personnel_b (image : string) : json :=
  JObj [("squadronMemberCollection",
         JObj [("7", JObj [("name", JStr " hans schmidt "); ("country", JStr "fr");
                           ("medals", JList [JObj [("medalImage", JStr image)];
                                             JObj [("medalName", JStr "Pour le Merite")]])])])].

(** Two Personnel files; the pilot is in "b.json", whose medal image is [image]. *)
Definition personnel_load (image : string) (p : string) : res (option json) :=
  if String.eqb p "a.json" then Ok (Some personnel_a)
  else if String.eqb p "b.json" then Ok (Some (personnel_b image))
  else Ok None.

Definition personnel_files_dir : personnel_dir :=
  {| pd_exists := true; pd_files := ["b.json"; "a.json"] |}.

(** [str.lstrip()] on the character list. *)
Fixpoint lstrip_l (l : list ascii) : list ascii :=
  match l with
  | c :: t => if is_space c then lstrip_l t else l
  | [] => []
  end.

(** [l1] is [l2] with some elements left out, the rest in order. *)
Inductive subseq {A : Type} : list A -> list A -> Prop :=
  | subseq_nil : subseq [] []
  | subseq_skip (x : A) (l1 l2 : list A) : subseq l1 l2 -> subseq l1 (x :: l2)
  | subseq_take (x : A) (l1 l2 : list A) : subseq l1 l2 -> subseq (x :: l1) (x :: l2).

(** The string [_collect_mission_file_candidates] deduplicates a path by:
    [str(p.resolve())], or [str(p)] when resolving raises [OSError]. *)
Definition resolved_key (resolve : string -> res string) (p : string) : string :=
  match try_except (resolve p) [OSError] (fun _ => Ok p) with
  | Ok r => r
  | Raise _ => p
  end.

(** The modification time [get_combat_reports] sorts a report file by:
    [st_mtime], or [0] when [stat()] raises [OSError]. *)
Definition eff_mtime (rd : reports_dir) (f : string) : Z :=
  match try_except (rd_mtime rd f) [OSError] (fun _ => Ok 0%Z) with
  | Ok z => z
  | Raise _ => 0%Z
  end.

(** The report dict [get_combat_reports] keeps for a file, if any. *)
Definition report_payload (load : string -> res (option json)) (f : string) : list dict :=
  match load f with
  | Ok (Some (JObj kv)) => [kv]
  | _ => []
  end.

Definition sample_reports_dir : reports_dir :=
  {| rd_exists := Ok true; rd_files := ["r1.json"; "r2.json"; "r3.json"];
     rd_mtime := fun f => if String.eqb f "r2.json" then Ok 30%Z
                          else if String.eqb f "r3.json" then Raise FileNotFoundError
                          else Ok 10%Z |}.

Definition sample_report_load (f : string) : res (option json) :=
  if String.eqb f "r1.json" then Ok (Some (JObj [("date", JStr "19180321")]))
  else if String.eqb f "r2.json" then Ok (Some (JList []))
  else Ok (Some (JObj [("date", JStr "19180322")])).

(** The keys of a mission summary built by [process_missions_data], in order. *)
Definition mission_entry_keys : list string :=
  ["date"; "time"; "aircraft"; "duty"; "locality"; "airfield"; "pilots"; "weather";
   "description"; "haReport"].

Definition sample_campaign : campaign_source := {|
  cs_campaign_info := Ok (JObj [("referencePlayerSerialNumber", JInt 1)]);
  cs_combat_reports := fun _ => Ok [[("date", JStr "19180101")]; [("date", JStr "19180102")]];
  cs_mission_dir := no_mission_dir;
  cs_squadron_personnel := fun _ => Ok JNull;
  cs_aces := Ok []
|}.


(** ** Facts about Python's stable sort *)

Section SortFacts.
Context {A : Type} (lt : A -> A -> bool).

(** [a] may precede [b]: [b < a] does not hold. *)
Definition not_after (a b : A) : Prop := lt b a = false.

Lemma insert_stable_perm (x : A) (l : list A) :
  Permutation (insert_stable lt x l) (x :: l).
Proof.
  induction l as [|y t IH]; simpl; [auto|].
  destruct (lt x y); [auto|].
  eapply perm_trans; [apply perm_skip, IH | apply perm_swap].
Qed.

Lemma fold_insert_perm (l acc : list A) :
  Permutation (fold_left (fun acc x => insert_stable lt x acc) l acc) (l ++ acc)%list.
Proof.
  revert acc; induction l as [|x t IH]; intros acc; simpl; [auto|].
  eapply perm_trans; [apply IH|].
  eapply perm_trans; [apply Permutation_app_head, insert_stable_perm|].
  apply Permutation_sym, Permutation_middle.
Qed.

Lemma py_sort_perm (l : list A) : Permutation (py_sort lt l) l.
Proof.
  unfold py_sort. eapply perm_trans; [apply fold_insert_perm|].
  rewrite app_nil_r. auto.
Qed.

Hypothesis lt_asym : forall a b, lt a b = true -> lt b a = false.

Lemma insert_stable_hd (a x : A) (l : list A) :
  HdRel not_after a l -> not_after a x -> HdRel not_after a (insert_stable lt x l).
Proof.
  intros Hl Hx. destruct l as [|y t]; simpl.
  - constructor; auto.
  - destruct (lt x y); constructor; auto. inversion Hl; auto.
Qed.

Lemma insert_stable_sorted (x : A) (l : list A) :
  Sorted not_after l -> Sorted not_after (insert_stable lt x l).
Proof.
  induction l as [|y t IH]; simpl; intros Hs.
  - repeat constructor.
  - destruct (lt x y) eqn:E.
    + constructor; [exact Hs|]. constructor. unfold not_after. apply lt_asym; exact E.
    + inversion Hs as [|? ? Ht Hhd]; subst.
      constructor; [apply IH; exact Ht|].
      apply insert_stable_hd; [exact Hhd | exact E].
Qed.

Lemma py_sort_sorted (l : list A) : Sorted not_after (py_sort lt l).
Proof.
  unfold py_sort.
  assert (G : forall acc, Sorted not_after acc ->
             Sorted not_after (fold_left (fun acc x => insert_stable lt x acc) l acc)).
  { induction l as [|x t IH]; intros acc Hacc; simpl; [exact Hacc|].
    apply IH, insert_stable_sorted, Hacc. }
  apply G. constructor.
Qed.
End SortFacts.

Lemma str_ltb_asym (a b : string) : str_lt a b = true -> str_lt b a = false.
Proof.
  unfold str_lt, String.ltb. rewrite (String.compare_antisym b a).
  destruct (String.compare a b); simpl; congruence.
Qed.

Lemma str_ltb_false_leb (a b : string) : str_lt b a = false -> String.leb a b = true.
Proof.
  unfold str_lt, String.ltb, String.leb. rewrite (String.compare_antisym b a).
  destruct (String.compare a b); simpl; congruence.
Qed.

Lemma pair_lt_asym {X Y : Type} (eqX ltX : X -> X -> bool) (ltY : Y -> Y -> bool) :
  (forall a b, eqX a b = eqX b a) ->
  (forall a b, ltX a b = true -> ltX b a = false) ->
  (forall a b, ltY a b = true -> ltY b a = false) ->
  forall a b, pair_lt eqX ltX ltY a b = true -> pair_lt eqX ltX ltY b a = false.
Proof.
  intros Hsym HX HY [a1 a2] [b1 b2]. unfold pair_lt; simpl.
  rewrite (Hsym b1 a1). destruct (eqX a1 b1); auto.
Qed.

(** Transitivity of Python's [<] on strings (code-point order). *)
Lemma ascii_compare_refl (a : ascii) : Ascii.compare a a = Eq.
Proof. unfold Ascii.compare. apply N.compare_refl. Qed.

Lemma ascii_compare_lt_trans (a b c : ascii) :
  Ascii.compare a b = Lt -> Ascii.compare b c = Lt -> Ascii.compare a c = Lt.
Proof.
  unfold Ascii.compare. rewrite !N.compare_lt_iff. lia.
Qed.

Lemma string_compare_lt_trans (a b c : string) :
  String.compare a b = Lt -> String.compare b c = Lt -> String.compare a c = Lt.
Proof.
  revert b c; induction a as [|x a IH]; intros [|y b] [|z c]; simpl;
    try discriminate; try reflexivity.
  destruct (Ascii.compare x y) eqn:Exy; intros H1; try discriminate;
    destruct (Ascii.compare y z) eqn:Eyz; intros H2; try discriminate.
  - apply Ascii.compare_eq_iff in Exy, Eyz. subst.
    rewrite ascii_compare_refl. apply (IH b c H1 H2).
  - apply Ascii.compare_eq_iff in Exy. subst. rewrite Eyz. reflexivity.
  - apply Ascii.compare_eq_iff in Eyz. subst. rewrite Exy. reflexivity.
  - rewrite (ascii_compare_lt_trans x y z Exy Eyz). reflexivity.
Qed.

Lemma str_lt_trans (a b c : string) :
  str_lt a b = true -> str_lt b c = true -> str_lt a c = true.
Proof.
  unfold str_lt, String.ltb.
  destruct (String.compare a b) eqn:Eab; try discriminate;
    destruct (String.compare b c) eqn:Ebc; try discriminate.
  rewrite (string_compare_lt_trans a b c Eab Ebc). reflexivity.
Qed.

Lemma str_lt_irrefl (s : string) : str_lt s s = false.
Proof.
  unfold str_lt, String.ltb.
  assert (E : String.compare s s = Eq).
  { induction s as [|c s IH]; [reflexivity|]. simpl. rewrite ascii_compare_refl. exact IH. }
  rewrite E. reflexivity.
Qed.

Lemma pair_lt_trans {X Y : Type} (eqX ltX : X -> X -> bool) (ltY : Y -> Y -> bool) :
  (forall a b, eqX a b = true <-> a = b) ->
  (forall a, ltX a a = false) ->
  (forall a b c, ltX a b = true -> ltX b c = true -> ltX a c = true) ->
  (forall a b c, ltY a b = true -> ltY b c = true -> ltY a c = true) ->
  forall a b c, pair_lt eqX ltX ltY a b = true -> pair_lt eqX ltX ltY b c = true ->
                pair_lt eqX ltX ltY a c = true.
Proof.
  intros Heq Hirr HtX HtY [a1 a2] [b1 b2] [c1 c2]. unfold pair_lt; simpl.
  destruct (eqX a1 b1) eqn:Eab; destruct (eqX b1 c1) eqn:Ebc; intros H1 H2.
  - apply Heq in Eab, Ebc. subst. rewrite (proj2 (Heq c1 c1) eq_refl).
    apply (HtY _ _ _ H1 H2).
  - apply Heq in Eab. subst. rewrite Ebc. exact H2.
  - apply Heq in Ebc. subst. rewrite Eab. exact H1.
  - destruct (eqX a1 c1) eqn:Eac.
    + apply Heq in Eac. subst. pose proof (HtX _ _ _ H1 H2) as C. rewrite Hirr in C. discriminate.
    + apply (HtX _ _ _ H1 H2).
Qed.

(** Python's sort is stable: elements that are equivalent for the
    comparison keep their relative order.  Stated per class [P] of
    equivalent elements: filtering the sorted list by [P] gives the input
    filtered by [P]. *)
Section StableFacts.
Context {A : Type} (lt : A -> A -> bool) (P : A -> bool).
Hypothesis lt_asym : forall a b, lt a b = true -> lt b a = false.
Hypothesis lt_trans : forall a b c, lt a b = true -> lt b c = true -> lt a c = true.
Hypothesis P_not_lt : forall a b, P a = true -> P b = true -> lt a b = false.
Hypothesis P_same : forall a b c, P a = true -> P b = true -> lt a c = lt b c.

Lemma insert_stable_strongly (x : A) (l : list A) :
  StronglySorted (not_after lt) l -> StronglySorted (not_after lt) (insert_stable lt x l).
Proof.
  induction l as [|y t IH]; intros Hs; cbn [insert_stable].
  - repeat constructor.
  - inversion Hs as [|? ? Ht Hall]; subst. rewrite Forall_forall in Hall.
    destruct (lt x y) eqn:E.
    + constructor; [exact Hs|]. apply Forall_forall. intros w [<-|Hw]; unfold not_after.
      * apply lt_asym, E.
      * destruct (lt w x) eqn:Ewx; [|reflexivity].
        pose proof (lt_trans _ _ _ Ewx E) as C. unfold not_after in Hall.
        rewrite (Hall w Hw) in C. discriminate.
    + constructor; [apply IH, Ht|]. apply Forall_forall. intros w Hw.
      apply (Permutation_in _ (insert_stable_perm lt x t)) in Hw.
      destruct Hw as [<-|Hw]; [exact E | apply Hall, Hw].
Qed.

Lemma filter_nil_all (l : list A) : (forall z, In z l -> P z = false) -> filter P l = [].
Proof.
  induction l as [|y t IH]; intros H; [reflexivity|]. cbn [filter].
  rewrite (H y (or_introl eq_refl)). apply IH. intros z Hz. apply H. right. exact Hz.
Qed.

Lemma filter_insert_out (x : A) (l : list A) :
  P x = false -> filter P (insert_stable lt x l) = filter P l.
Proof.
  intros Hx. induction l as [|y t IH]; cbn [insert_stable filter]; [rewrite Hx; reflexivity|].
  destruct (lt x y); cbn [filter]; [rewrite Hx; reflexivity|].
  destruct (P y); [f_equal|]; exact IH.
Qed.

Lemma filter_insert_in (x : A) (l : list A) :
  StronglySorted (not_after lt) l -> P x = true ->
  filter P (insert_stable lt x l) = (filter P l ++ [x])%list.
Proof.
  intros Hs Hx. induction l as [|y t IH]; cbn [insert_stable filter]; [rewrite Hx; reflexivity|].
  inversion Hs as [|? ? Ht Hall]; subst. rewrite Forall_forall in Hall.
  destruct (lt x y) eqn:E.
  - assert (Hn : filter P (y :: t) = []).
    { apply filter_nil_all. intros z [Ez|Hz]; destruct (P z) eqn:Pz; try reflexivity.
      - subst z. rewrite (P_not_lt x y Hx Pz) in E. discriminate.
      - pose proof (Hall z Hz) as Hzy. unfold not_after in Hzy.
        rewrite (P_same z x y Pz Hx), E in Hzy. discriminate. }
    cbn [filter] in Hn |- *. rewrite Hx, Hn. reflexivity.
  - cbn [filter]. destruct (P y); rewrite (IH Ht); reflexivity.
Qed.

Lemma py_sort_filter (l : list A) : filter P (py_sort lt l) = filter P l.
Proof.
  unfold py_sort.
  assert (G : forall acc, StronglySorted (not_after lt) acc ->
             filter P (fold_left (fun acc x => insert_stable lt x acc) l acc)
             = (filter P acc ++ filter P l)%list).
  { induction l as [|x t IH]; intros acc Hacc; cbn [fold_left filter].
    - rewrite app_nil_r. reflexivity.
    - rewrite (IH _ (insert_stable_strongly x acc Hacc)).
      destruct (P x) eqn:Px.
      + rewrite (filter_insert_in x acc Hacc Px), <- app_assoc. reflexivity.
      + rewrite (filter_insert_out x acc Px). reflexivity. }
  apply G. constructor.
Qed.
End StableFacts.

(** ** Strings *)

Lemma lower_char_eq_dec (a b : ascii) :
  (if ascii_dec a b then true else false) = true ->
  (if ascii_dec (lower_char a) (lower_char b) then true else false) = true.
Proof.
  destruct (ascii_dec a b) as [->|]; [|discriminate].
  destruct (ascii_dec (lower_char b) (lower_char b)); congruence.
Qed.

Lemma prefix_lower (p s : string) :
  String.prefix p s = true -> String.prefix (lower p) (lower s) = true.
Proof.
  revert s; induction p as [|a p IH]; intros s H; [destruct s; reflexivity|].
  destruct s as [|b s]; simpl in *; [discriminate|].
  destruct (ascii_dec a b) as [->|]; [|discriminate].
  destruct (ascii_dec (lower_char b) (lower_char b)); [|congruence].
  apply IH, H.
Qed.

Lemma contains_unfold (needle hay : string) :
  contains needle hay = String.prefix needle hay ||
    match hay with EmptyString => false | String _ t => contains needle t end.
Proof. destruct hay; reflexivity. Qed.

Lemma contains_lower (p s : string) :
  contains p s = true -> contains (lower p) (lower s) = true.
Proof.
  induction s as [|c s IH]; intros H; rewrite contains_unfold in H |- *;
    apply orb_true_iff in H; apply orb_true_iff.
  - destruct H as [H|H]; [left; apply prefix_lower, H | discriminate].
  - destruct H as [H|H]; [left; apply prefix_lower, H | right; apply IH, H].
Qed.

Lemma prefix_refl (s : string) : String.prefix s s = true.
Proof.
  induction s as [|c s IH]; simpl; [reflexivity|].
  destruct (ascii_dec c c); congruence.
Qed.

Lemma substring_prefix (n : nat) (s : string) : String.prefix (String.substring 0 n s) s = true.
Proof.
  revert n; induction s as [|c s IH]; intros n; destruct n; simpl; try reflexivity.
  destruct (ascii_dec c c); [apply IH | congruence].
Qed.

Lemma prefix_contains (p s : string) : String.prefix p s = true -> contains p s = true.
Proof. intros H. rewrite contains_unfold, H. reflexivity. Qed.

Lemma embedded_date_contains (s d : string) : embedded_date s = Some d -> contains d s = true.
Proof.
  induction s as [|c s IH]; intros H.
  - discriminate H.
  - change (embedded_date (String c s)) with
      (if is_date_shape (String.substring 0 10 (String c s))
       then Some (String.substring 0 10 (String c s)) else embedded_date s) in H.
    destruct (is_date_shape (String.substring 0 10 (String c s))) eqn:E.
    + assert (Hd : d = String.substring 0 10 (String c s)) by congruence.
      rewrite Hd. apply prefix_contains, substring_prefix.
    + rewrite contains_unfold. apply orb_true_iff; right. apply IH, H.
Qed.

Lemma code_date_regex_search_contains (f m : string) :
  code_date_regex_search f = Some m -> contains m f = true.
Proof.
  unfold code_date_regex_search. destruct (contains code_date_regex_text f) eqn:E; [|discriminate].
  intros H; injection H as <-. exact E.
Qed.

Lemma filter_all_false {A : Type} (f : A -> bool) (l : list A) :
  (forall x, In x l -> f x = false) -> filter f l = [].
Proof.
  induction l as [|x t IH]; simpl; intros H; [reflexivity|].
  rewrite (H x (or_introl eq_refl)). apply IH. intros y Hy; apply H; right; exact Hy.
Qed.

(** A file name holding [date_dashed] is a Tier C candidate. *)
Lemma in_tierC_of_contains (cands : list string) (date_dashed f : string) :
  In f cands -> contains date_dashed f = true -> In f (tierC cands (lower date_dashed)).
Proof.
  intros Hin Hc. unfold tierC. apply filter_In. split; [exact Hin|].
  apply contains_lower, Hc.
Qed.

(** ** C4: pilot-name cleaning *)

(** C4 (code_bug).  [_clean_pilot_name] is meant to strip a leading rank
    and collapse whitespace, but its raw-string patterns double the
    backslashes, so they need a literal backslash after the rank and
    before [s]: "Lieutenant Hans Schmidt", and the docstring's
    "Lt. Hans Schmidt", come back unchanged. *)
Theorem clean_pilot_name_keeps_rank :
  clean_pilot_name "Lieutenant Hans Schmidt" = "Lieutenant Hans Schmidt"
  /\ clean_pilot_name "Lt. Hans Schmidt" = "Lt. Hans Schmidt"
  /\ clean_pilot_name "Hans   Schmidt" = "Hans   Schmidt".
Proof. vm_compute. auto. Qed.

(** ** C5: tier order of mission-file matching *)

(** C5 (counterexample).  With report date 19180101 the dashed date is
    "1918-01-01", which neither "19180101_SchmidtA.json" nor
    "19180101_Other.json" contains: Tier A selects nothing. *)
Lemma tierA_schmidt_empty :
  tierA schmidt_files (lower (clean_pilot_name "Schmidt"))
        (lower (match strptime_ymd "19180101" with
                | Some ymd => strftime_dashed ymd
                | None => ""
                end)) = [].
Proof. vm_compute. reflexivity. Qed.

(** C5 (amended).  The first non-empty tier wins: Tier A (date and, when
    the cleaned pilot name is non-empty, pilot name, case-insensitive
    substrings), then Tier B (pilot name) when Tier A is empty and the name
    is non-empty, then Tier C (date).  On the files "19180101_SchmidtA.json"
    and "19180101_Other.json", report date 19180101 and pilot "Schmidt",
    Tier A is empty and Tier B selects the first file, which
    [get_mission_data] then loads. *)
Theorem mission_tiers_first_nonempty (cands : list string) (pilot_name_clean date_dashed : string) :
  let lp := lower pilot_name_clean in
  let ld := lower date_dashed in
  (tierA cands lp ld <> [] ->
     find_mission_file_matches cands pilot_name_clean date_dashed = tierA cands lp ld)
  /\ (tierA cands lp ld = [] -> lp <> "" -> tierB cands lp <> [] ->
     find_mission_file_matches cands pilot_name_clean date_dashed = tierB cands lp)
  /\ (tierA cands lp ld = [] -> (lp = "" \/ tierB cands lp = []) -> tierC cands ld <> [] ->
     find_mission_file_matches cands pilot_name_clean date_dashed = tierC cands ld)
  /\ (forall f, In f (tierA cands lp ld) <->
        In f cands /\ contains ld (lower f) = true /\ (lp = "" \/ contains lp (lower f) = true))
  /\ (forall f, In f (tierB cands lp) <-> In f cands /\ contains lp (lower f) = true)
  /\ (forall f, In f (tierC cands ld) <-> In f cands /\ contains ld (lower f) = true)
  /\ tierA schmidt_files "schmidt" "1918-01-01" = []
  /\ find_mission_file_matches schmidt_files "Schmidt" "1918-01-01" = ["19180101_SchmidtA.json"]
  /\ get_mission_data schmidt_dir schmidt_report
     = Ok [("missionDescription", JStr "Schmidt A")].
Proof.
  intros lp ld. unfold find_mission_file_matches. fold lp ld.
  split; [|split; [|split; [|split; [|split; [|split]]]]].
  - destruct (tierA cands lp ld); congruence.
  - intros HA Hlp HB. rewrite HA.
    destruct (String.eqb lp "") eqn:E; [apply String.eqb_eq in E; contradiction|].
    destruct (tierB cands lp); congruence.
  - intros HA HB HC. rewrite HA.
    destruct (String.eqb lp "") eqn:E.
    + destruct (tierC cands ld); congruence.
    + destruct HB as [HB|HB]; [apply String.eqb_neq in E; contradiction|].
      rewrite HB. destruct (tierC cands ld); congruence.
  - intros f. unfold tierA. rewrite filter_In, andb_true_iff, orb_true_iff, String.eqb_eq.
    tauto.
  - intros f. unfold tierB. rewrite filter_In. tauto.
  - intros f. unfold tierC. rewrite filter_In. tauto.
  - vm_compute. repeat split; reflexivity.
Qed.

(** ** C6: Tier D *)

(** C6.  When Tiers A, B and C are empty, the selection is exactly the
    candidates whose embedded [\d{4}-\d{2}-\d{2}] text equals the dashed
    date.  Both sides are empty then: a name embedding the date contains
    it, so Tier C would have taken it (and the compiled code pattern, a
    literal backslash text, never equals a dashed date Tier C missed). *)
Theorem tier_d_selects_embedded_date (cands : list string) (pilot_name_clean date_dashed : string) :
  tierA cands (lower pilot_name_clean) (lower date_dashed) = [] ->
  (lower pilot_name_clean = "" \/ tierB cands (lower pilot_name_clean) = []) ->
  tierC cands (lower date_dashed) = [] ->
  find_mission_file_matches cands pilot_name_clean date_dashed
  = filter (fun f => match embedded_date f with
                     | Some d => String.eqb d date_dashed
                     | None => false
                     end) cands.
Proof.
  intros HA HB HC. unfold find_mission_file_matches. rewrite HA.
  assert (HB' : (if String.eqb (lower pilot_name_clean) "" then []
                 else tierB cands (lower pilot_name_clean)) = []).
  { destruct (String.eqb (lower pilot_name_clean) "") eqn:E; [reflexivity|].
    destruct HB as [HB|HB]; [apply String.eqb_neq in E; contradiction | exact HB]. }
  rewrite HB', HC.
  assert (Hno : forall f, In f cands -> contains date_dashed f = false).
  { intros f Hin. destruct (contains date_dashed f) eqn:E; [|reflexivity].
    pose proof (in_tierC_of_contains cands date_dashed f Hin E) as Hc.
    rewrite HC in Hc. destruct Hc. }
  unfold tierD. rewrite !filter_all_false; [reflexivity| |].
  - intros f Hin. destruct (embedded_date f) as [d|] eqn:E; [|reflexivity].
    destruct (String.eqb d date_dashed) eqn:Ed; [|reflexivity].
    apply String.eqb_eq in Ed; subst d.
    apply embedded_date_contains in E. rewrite (Hno f Hin) in E. discriminate.
  - intros f Hin. destruct (code_date_regex_search f) as [m|] eqn:E; [|reflexivity].
    destruct (String.eqb m date_dashed) eqn:Ed; [|reflexivity].
    apply String.eqb_eq in Ed; subst m.
    apply code_date_regex_search_contains in E. rewrite (Hno f Hin) in E. discriminate.
Qed.

(** Witness for C6: a directory whose only candidates carry other dates. *)
Lemma tier_d_selects_embedded_date_witness :
  tierA ["1918-02-03_X.json"] (lower "Hans") (lower "1918-01-01") = []
  /\ (lower "Hans" = "" \/ tierB ["1918-02-03_X.json"] (lower "Hans") = [])
  /\ tierC ["1918-02-03_X.json"] (lower "1918-01-01") = []
  /\ find_mission_file_matches ["1918-02-03_X.json"] "Hans" "1918-01-01"
     = filter (fun f => match embedded_date f with
                        | Some d => String.eqb d "1918-01-01"
                        | None => false
                        end) ["1918-02-03_X.json"].
Proof.
  assert (HA : tierA ["1918-02-03_X.json"] (lower "Hans") (lower "1918-01-01") = [])
    by (vm_compute; reflexivity).
  assert (HB : lower "Hans" = "" \/ tierB ["1918-02-03_X.json"] (lower "Hans") = [])
    by (right; vm_compute; reflexivity).
  assert (HC : tierC ["1918-02-03_X.json"] (lower "1918-01-01") = [])
    by (vm_compute; reflexivity).
  split; [exact HA|]. split; [exact HB|]. split; [exact HC|].
  apply (tier_d_selects_embedded_date ["1918-02-03_X.json"] "Hans" "1918-01-01" HA HB HC).
Defined.

(** ** C7: order of the mission summaries *)

Lemma sorted_impl_in {A : Type} (R R' : A -> A -> Prop) (l : list A) :
  (forall x y, In x l -> In y l -> R x y -> R' x y) -> Sorted R l -> Sorted R' l.
Proof.
  induction l as [|x t IH]; intros H Hs; [constructor|].
  inversion Hs as [|? ? Ht Hhd]; subst. constructor.
  - apply IH; [intros a b Ha Hb; apply H; right; assumption | exact Ht].
  - destruct t as [|y u]; constructor. inversion Hhd; subst.
    apply H; [left; reflexivity | right; left; reflexivity | assumption].
Qed.

Lemma string_compare_refl (s : string) : String.compare s s = Eq.
Proof.
  induction s as [|c s IH]; simpl; [reflexivity|].
  unfold Ascii.compare. rewrite N.compare_refl. exact IH.
Qed.

Lemma string_leb_refl (s : string) : String.leb s s = true.
Proof. unfold String.leb. rewrite string_compare_refl. reflexivity. Qed.

Lemma report_sort_key_nonempty (r : dict) : report_sort_key r <> "".
Proof.
  unfold report_sort_key. destruct (String.eqb (py_str (dict_get r "date" (JStr ""))) "") eqn:E.
  - discriminate.
  - apply String.eqb_neq, E.
Qed.

Lemma process_one_report_key (md : mission_dir) (serial : string) (psid : json) (r : dict)
  (item : string * dict) (psid' : json) :
  process_one_report md serial psid r = Ok (item, psid') -> fst item = report_sort_key r.
Proof.
  unfold process_one_report.
  destruct (try_except _ _ _) as [d|e]; simpl; [|discriminate].
  intros H. injection H as <- _. reflexivity.
Qed.

Lemma missions_loop_keys (md : mission_dir) (serial : string) (reports : list json) :
  forall psid keyed psid',
    missions_loop md serial psid reports = Ok (keyed, psid') ->
    map fst keyed = map report_sort_key (dict_reports reports).
Proof.
  induction reports as [|j rest IH]; intros psid keyed psid' H; simpl in H.
  - injection H as <- _. reflexivity.
  - destruct j; try (apply (IH psid keyed psid' H)).
    destruct (process_one_report md serial psid kv) as [[item p1]|e] eqn:E; simpl in H;
      [|discriminate].
    destruct (missions_loop md serial p1 rest) as [[items p2]|e] eqn:E2; simpl in H;
      [|discriminate].
    injection H as <- _. simpl. f_equal.
    + apply (process_one_report_key md serial psid kv item p1 E).
    + apply (IH p1 items p2 E2).
Qed.

Lemma mission_sort_key_fst (a b : string * dict) :
  fst a = fst b -> mission_sort_key a = mission_sort_key b.
Proof. intros E. unfold mission_sort_key. rewrite E. reflexivity. Qed.

(** C7 (counterexample).  A report whose date text "1918-01-02" is not
    YYYYMMDD keeps that text as its key and sorts before the report dated
    19180101, not last. *)
Lemma unparseable_date_not_last :
  mission_dates (process_missions_data no_mission_dir dashed_date_reports "1")
  = [JStr "1918-01-02"; JStr "01/01/1918"].
Proof. vm_compute. reflexivity. Qed.

(** C7 (amended).  Whenever mission aggregation returns, the summaries are
    the reports' entries stably sorted ascending by the text of the
    report's [date] ([str(report.get("date", ""))]), a missing or empty
    date being replaced by the sentinel "99999999".  Stability: for every
    key, the entries with that key appear in the sorted list in the order
    of the reports.  Reports dated
    "19180101", "", "19171231" come out as 19171231, 19180101, then the
    empty-dated one. *)
Theorem missions_sorted_by_report_date :
  (forall (md : mission_dir) (reports : list json) (serial : string)
          (missions : list dict) (psid : json),
     process_missions_data md reports serial = Ok (missions, psid) ->
     exists keyed sorted,
       missions_loop md serial JNull reports = Ok (keyed, psid)
       /\ map fst keyed = map report_sort_key (dict_reports reports)
       /\ Permutation sorted keyed
       /\ Sorted (fun a b => String.leb (fst a) (fst b) = true) sorted
       /\ (forall k, filter (fun x => String.eqb (fst x) k) sorted
                    = filter (fun x => String.eqb (fst x) k) keyed)
       /\ missions = map snd sorted)
  /\ mission_dates (process_missions_data no_mission_dir dated_reports "1")
     = [JStr "31/12/1917"; JStr "01/01/1918"; JStr ""].
Proof.
  split; [|vm_compute; reflexivity].
  intros md reports serial missions psid H.
  unfold process_missions_data in H.
  destruct (missions_loop md serial JNull reports) as [[keyed p]|e] eqn:E; simpl in H;
    [|discriminate].
  injection H as Hm Hp. subst p.
  exists keyed, (sort_by_key mission_key_lt mission_sort_key keyed).
  pose proof (missions_loop_keys md serial reports JNull keyed psid E) as Hk.
  split; [reflexivity|]. split; [exact Hk|]. split; [apply py_sort_perm|].
  split; [|split; [|symmetry; exact Hm]].
  2:{ intros k. unfold sort_by_key. apply py_sort_filter.
      - intros a b Hab. unfold mission_key_lt.
        apply pair_lt_asym; [exact (fun x y => String.eqb_sym x y) | exact str_ltb_asym
                            | exact str_ltb_asym | exact Hab].
      - intros a b c. unfold mission_key_lt. apply pair_lt_trans;
          [exact String.eqb_eq | exact str_lt_irrefl | exact str_lt_trans | exact str_lt_trans].
      - intros a b Ha Hb. apply String.eqb_eq in Ha, Hb.
        rewrite (mission_sort_key_fst a b (eq_trans Ha (eq_sym Hb))).
        unfold mission_key_lt, pair_lt. rewrite String.eqb_refl. apply str_lt_irrefl.
      - intros a b c Ha Hb. apply String.eqb_eq in Ha, Hb.
        rewrite (mission_sort_key_fst a b (eq_trans Ha (eq_sym Hb))). reflexivity. }
  assert (Hne : forall x, In x keyed -> fst x <> "").
  { intros x Hx. apply (in_map fst) in Hx. rewrite Hk in Hx.
    apply in_map_iff in Hx as [r [<- _]]. apply report_sort_key_nonempty. }
  eapply sorted_impl_in; [| apply (py_sort_sorted _)].
  - intros a b Ha Hb Hab. unfold not_after, mission_key_lt, mission_sort_key, pair_lt in Hab.
    apply (Permutation_in _ (py_sort_perm _ _)) in Ha.
    apply (Permutation_in _ (py_sort_perm _ _)) in Hb.
    pose proof (Hne a Ha) as Hna. pose proof (Hne b Hb) as Hnb.
    apply String.eqb_neq in Hna, Hnb. simpl in Hab. rewrite Hna, Hnb in Hab.
    destruct (String.eqb (fst b) (fst a)) eqn:Eab.
    + apply String.eqb_eq in Eab. rewrite Eab. apply string_leb_refl.
    + apply str_ltb_false_leb, Hab.
  - intros a b Hab. unfold mission_key_lt.
    apply pair_lt_asym; [exact (fun x y => String.eqb_sym x y) | exact str_ltb_asym
                        | exact str_ltb_asym | exact Hab].
Qed.

(** ** C8 and C9: squadron roster and aces *)

Open Scope Z_scope.


Lemma Zltb_asym (a b : Z) : Z.ltb a b = true -> Z.ltb b a = false.
Proof. intros H. apply Z.ltb_lt in H. apply Z.ltb_ge. lia. Qed.















Lemma squadron_member_raise (p : json) (e : exc) :
  squadron_member p = Raise e -> e = AttributeError \/ e = TypeError.
Proof.
  destruct p; simpl; try (intros H; injection H as <-; left; reflexivity).
  destruct (get_pilot_status _) eqn:G; cbn [bind]; [discriminate|].
  intros H. injection H as ->. right.
  destruct (dict_get kv "pilotActiveStatus" (JInt (-1))); simpl in G;
    try discriminate; injection G as ->; reflexivity.
Qed.



Lemma get_campaign_aces_obj (k : string * json) (kv : dict) :
  get_campaign_aces (Some (JObj (k :: kv)))
  = match dict_lookup (k :: kv) "aces" with
    | Some (JList l) => l
    | _ => match dict_lookup (k :: kv) "acesInCampaign" with
           | Some (JObj m) => dict_values m
           | _ => []
           end
    end.
Proof. reflexivity. Qed.

(** C9.  The ace loader returns the array of a bare-array document, the
    [aces] array of an object that has one, otherwise the values of an
    [acesInCampaign] object, and [] for anything else (no file, a falsy
    document, another shape); whenever ace aggregation returns, its entries
    are those of the aces sorted descending by victory count, a list of
    victories counting its length: [{"victories":[1,2,3]}, {"victories":[1]}]
    keeps the 3-victory entry first, in either input order. *)
Theorem aces_shapes_and_order :
  (forall l, get_campaign_aces (Some (JList l)) = l)
  /\ (forall kv l, dict_lookup kv "aces" = Some (JList l) -> get_campaign_aces (Some (JObj kv)) = l)
  /\ (forall kv m, (forall l, dict_lookup kv "aces" <> Some (JList l)) ->
        dict_lookup kv "acesInCampaign" = Some (JObj m) ->
        get_campaign_aces (Some (JObj kv)) = dict_values m)
  /\ (forall kv, (forall l, dict_lookup kv "aces" <> Some (JList l)) ->
        (forall m, dict_lookup kv "acesInCampaign" <> Some (JObj m)) ->
        get_campaign_aces (Some (JObj kv)) = [])
  /\ get_campaign_aces None = []
  /\ (forall d, (forall l, d <> JList l) -> (forall kv, d <> JObj kv) -> get_campaign_aces (Some d) = [])
  /\ (forall l, ace_victories (JList l) = Z.of_nat (length l))
  /\ (forall aces out, process_aces_data aces = Ok out ->
        Permutation out (match map_res ace_entry aces with Ok o => o | Raise _ => [] end)
        /\ Sorted (fun a b => member_victories b <= member_victories a) out)
  /\ victory_counts (process_aces_data aces_3_1) = [JInt 3; JInt 1]
  /\ victory_counts (process_aces_data aces_1_3) = [JInt 3; JInt 1].
Proof.
  split; [intros [|x l]; reflexivity|].
  split; [intros kv l H; destruct kv as [|k kv]; [discriminate|];
           rewrite get_campaign_aces_obj, H; reflexivity|].
  split.
  { intros kv m Ha Hc. destruct kv as [|k kv]; [discriminate|]. rewrite get_campaign_aces_obj.
    destruct (dict_lookup _ "aces") as [j|] eqn:E.
    - destruct j; try (rewrite Hc; reflexivity). exfalso. apply (Ha l). reflexivity.
    - rewrite Hc. reflexivity. }
  split.
  { intros kv Ha Hc. destruct kv as [|k kv]; [reflexivity|]. rewrite get_campaign_aces_obj.
    destruct (dict_lookup (k :: kv) "aces") as [j|] eqn:E;
      [destruct j as [| | | | |la|]; [| | | | |exfalso; exact (Ha la eq_refl)|] |];
      destruct (dict_lookup (k :: kv) "acesInCampaign") as [j2|] eqn:E2;
      try (destruct j2 as [| | | | | |m2]; [..|exfalso; exact (Hc m2 eq_refl)]);
      reflexivity. }
  split; [reflexivity|].
  split.
  { intros d Hl Ho. destruct d; simpl; try (destruct (negb _)); try reflexivity.
    all: exfalso; first [exact (Hl _ eq_refl) | exact (Ho _ eq_refl)]. }
  split; [reflexivity|].
  split.
  { intros aces out H. unfold process_aces_data in H. destruct aces as [|a rest].
    - injection H as <-. split; constructor.
    - destruct (map_res ace_entry (a :: rest)) as [o|e] eqn:E; simpl in H; [|discriminate].
      injection H as <-. split; [apply py_sort_perm|].
      eapply sorted_impl_in; [| apply (py_sort_sorted _)].
      + intros x y _ _ Hxy. unfold not_after in Hxy. apply Z.ltb_ge in Hxy. exact Hxy.
      + intros x y Hxy. apply Zltb_asym, Hxy. }
  split; vm_compute; reflexivity.
Qed.

(** ** C10: mission aggregation on reports of any shape *)

(** C10.  For an existing MissionData directory (any candidates, any
    timestamps, any payloads), a report whose [date] is a list of eight
    items makes mission aggregation raise [AttributeError]:
    [_is_valid_date_string] calls [.isdigit] on the list, and the
    [except (KeyError, TypeError, ValueError, OSError)] around
    [get_mission_data] does not catch it. *)
Theorem missions_raise_on_list_date (cands : list string) (mtime : string -> res Z)
  (load : string -> res (option json)) (serial : string) :
  process_missions_data (Build_mission_dir true cands mtime load) list_date_reports serial
  = Raise AttributeError.
Proof. reflexivity. Qed.

(** ** C2 and C1: the JSON loader and the batch repository *)

(** C2.  A missing or unreadable file loads as [None], but a file holding
    valid JSON in Latin-1 that is not valid UTF-8 ([{"n":"\xe9"}]) makes
    [get_json_data] raise [UnicodeDecodeError], whatever [json.loads] does:
    the strict UTF-8 read of attempt 1 raises it, the [except] of attempt 1
    does not list it, and the fallback of [get_json_data] reads the file
    the same way again. *)
Theorem latin1_file_raises (json_loads : list Z -> res json) :
  (forall fs p, fs p = FMissing -> load_json_file json_loads fs p = Ok None)
  /\ (forall fs p, fs p = FUnreadable -> load_json_file json_loads fs p = Ok None)
  /\ utf8_decode_strict latin1_json_bytes = None
  /\ latin1_decode latin1_json_bytes = [123; 34; 110; 34; 58; 34; 233; 34; 125]
  /\ get_json_data json_loads legacy_fs ok_resolve "legacy.json" = Raise UnicodeDecodeError.
Proof.
  split; [intros fs p H; unfold load_json_file; rewrite H; reflexivity|].
  split; [intros fs p H; unfold load_json_file; rewrite H; reflexivity|].
  split; [vm_compute; reflexivity|].
  split; [vm_compute; reflexivity|].
  reflexivity.
Qed.







(** ** C3: personnel resolution *)

Lemma dict_set_fresh {V : Type} (d : list (string * V)) (k : string) (v : V) :
  ~ In k (map fst d) -> dict_set d k v = (d ++ [(k, v)])%list.
Proof.
  induction d as [|[k' v'] t IH]; simpl; intros Hn; [reflexivity|].
  destruct (String.eqb k k') eqn:E.
  - apply String.eqb_eq in E. subst k'. exfalso. apply Hn. left. reflexivity.
  - rewrite IH; [reflexivity|]. intros H. apply Hn. right. exact H.
Qed.

Lemma get_json_many_acc_nodup (load : string -> res (option json)) (paths : list string) :
  NoDup paths -> (forall p, In p paths -> exists v, load p = Ok v) ->
  forall acc, (forall p, In p paths -> ~ In p (map fst acc)) ->
  get_json_many_acc load acc paths = Ok (acc ++ map (fun p => (p, payload_of load p)) paths)%list.
Proof.
  induction paths as [|p t IH]; intros Hnd Hall acc Hfresh; simpl.
  - rewrite app_nil_r. reflexivity.
  - inversion Hnd as [|? ? Hnotin Hnd']; subst.
    destruct (Hall p (or_introl eq_refl)) as [v Hv]. rewrite Hv. simpl.
    rewrite dict_set_fresh by (apply Hfresh; left; reflexivity).
    rewrite IH; [| exact Hnd' | intros q Hq; apply Hall; right; exact Hq |].
    + rewrite <- app_assoc. simpl.
      replace (payload_of load p) with v by (unfold payload_of; rewrite Hv; reflexivity).
      reflexivity.
    + intros q Hq Hin. rewrite map_app in Hin. apply in_app_or in Hin as [Hin|[Heq|[]]].
      * apply (Hfresh q); [right; exact Hq | exact Hin].
      * simpl in Heq. subst q. apply Hnotin. exact Hq.
Qed.

Lemma scan_members_find (norm : string) (l : list json) :
  scan_members norm l
  = option_map (fun m => (upper (field_text m "country"), lower (field_text m "name"),
                          py_or (dict_get m "medals" (JList [])) (JList [])))
               (find (fun m => String.eqb (lower (field_text m "name")) norm) (member_dicts l)).
Proof.
  induction l as [|j t IH]; [reflexivity|].
  destruct j; try exact IH. simpl.
  destruct (String.eqb (lower (field_text kv "name")) norm); [reflexivity | exact IH].
Qed.

Lemma resolve_many_first_match (load : string -> res (option json)) (norm : string)
  (files : list string) :
  (forall p kv, In p files -> load p = Ok (Some (JObj kv)) ->
     exists coll, py_or (dict_get kv "squadronMemberCollection" (JObj [])) (JObj []) = JObj coll) ->
  exists l, resolve_many (resolve_member norm) (map (fun p => (p, payload_of load p)) files) = Ok l
    /\ hd_error l
       = option_map (fun m => (upper (field_text m "country"), lower (field_text m "name"),
                               py_or (dict_get m "medals" (JList [])) (JList [])))
                    (first_member_match load norm files).
Proof.
  induction files as [|f t IH]; intros Hcoll; [exists []; split; reflexivity|].
  destruct IH as [rest [Hrest Hhd]]; [intros p kv Hp; apply Hcoll; right; exact Hp|].
  simpl. unfold payload_of at 1.
  destruct (load f) as [[j|]|e] eqn:Ef; simpl;
    try (exists rest; split; [exact Hrest | exact Hhd]).
  destruct j; simpl; try (rewrite Hrest; exists rest; split; [reflexivity | exact Hhd]).
  destruct (Hcoll f kv (or_introl eq_refl) Ef) as [coll Hc].
  rewrite Hc. simpl. rewrite Hrest. simpl. rewrite scan_members_find.
  destruct (find _ _) as [m|]; simpl.
  - exists (((upper (field_text m "country"), lower (field_text m "name")),
             py_or (dict_get m "medals" (JList [])) (JList [])) :: rest).
    split; reflexivity.
  - exists rest. split; [reflexivity | exact Hhd].
Qed.

Lemma set_add_in (x : string) (s : list string) (y : string) :
  In y (set_add x s) <-> In y s \/ y = x.
Proof.
  unfold set_add. destruct (existsb (String.eqb x) s) eqn:E.
  - apply existsb_exists in E as [z [Hz Hxz]]. apply String.eqb_eq in Hxz. subst z.
    split; [intros H; left; exact H | intros [H| ->]; assumption].
  - rewrite in_app_iff. simpl. split; intros [H|H]; auto.
    + destruct H as [->|[]]. right. reflexivity.
Qed.

Lemma medal_loop_ids (ms : list json) :
  Forall (fun x => exists md, x = JObj md) ms ->
  forall acc id, In id (fst (medal_loop ms acc))
                 <-> In id acc \/ exists md, In (JObj md) ms /\ medal_id_spec md = Some id.
Proof.
  induction ms as [|j t IH]; intros Hall acc id; simpl.
  - split; [intros H; left; exact H | intros [H|[md [[] _]]]; exact H].
  - inversion Hall as [|? ? [md ->] Hall']; subst.
    assert (Hstep : forall acc', (In id acc' <-> In id acc \/ medal_id_spec md = Some id) ->
                      (In id (fst (medal_loop t acc'))
                       <-> In id acc \/ exists md', (JObj md = JObj md' \/ In (JObj md') t)
                                                    /\ medal_id_spec md' = Some id)).
    { intros acc' Hacc. rewrite (IH Hall' acc' id), Hacc. split.
      - intros [[H|H]|[md' [H1 H2]]]; [left; exact H | right; exists md; auto | right; eauto].
      - intros [H|[md' [[Heq|Hin] Hid]]]; [left; left; exact H| |right; eauto].
        injection Heq as <-. left. right. exact Hid. }
    destruct (negb (String.eqb (field_text md "medalImage") "")) eqn:E1.
    + apply Hstep. unfold medal_id_spec. cbv zeta. rewrite E1, set_add_in.
      split; intros [H|H]; auto; right; congruence.
    + destruct (negb (String.eqb (field_text md "medalName") "")) eqn:E2.
      * apply Hstep. unfold medal_id_spec. cbv zeta. rewrite E1, E2, set_add_in.
        split; intros [H|H]; auto; right; congruence.
      * apply Hstep. unfold medal_id_spec. cbv zeta. rewrite E1, E2.
        split; [intros H; left; exact H | intros [H|H]; [exact H | discriminate]].
Qed.

(** C3 (counterexample).  A medal whose image is "croix.jpg" contributes the
    id "croix.jpg": only a ".png" suffix is removed, not the extension of
    any image file. *)
Lemma jpg_medal_keeps_extension :
  earned_medal_ids (resolve_personnel (personnel_load "croix.jpg") personnel_files_dir
                                      "Camp" "Hans Schmidt")
  = ["croix.jpg"; "pour_le_merite"].
Proof. vm_compute. reflexivity. Qed.

(** C3 (amended).  When the Personnel directory exists, the campaign and
    pilot names are non-blank, every file loads and every member collection
    is an object (or empty), [resolve] takes the first member, over the
    files in sorted order and the members in map order, whose trimmed
    lower-cased name equals the trimmed lower-cased pilot name: its country
    goes through the canonicalisation table ("fr" gives ("FRANCE", "France"),
    an unmapped value ("GERMANY", "Germany")), and when its medals are a
    list of objects the medal ids are, per medal, the trimmed [medalImage]
    with a trailing ".png" (any case) removed, or else the lower-cased,
    space-to-underscore [medalName] ("croix.png" gives "croix").  With no
    such member the result is ("GERMANY", "Germany", {}). *)
Theorem personnel_resolves_first_match (load : string -> res (option json))
  (pd : personnel_dir) (campaign pilot_name : string)
  (Hdir : pd_exists pd = true)
  (Hcamp : strip campaign <> "")
  (Hpilot : lower (strip pilot_name) <> "")
  (Hnodup : NoDup (pd_files pd))
  (Hload : forall p, In p (pd_files pd) -> exists v, load p = Ok v)
  (Hcoll : forall p kv, In p (pd_files pd) -> load p = Ok (Some (JObj kv)) ->
     exists coll, py_or (dict_get kv "squadronMemberCollection" (JObj [])) (JObj []) = JObj coll) :
  map_country_to_folder_and_label "fr" = ("FRANCE", "France")
  /\ map_country_to_folder_and_label "ITALY" = ("GERMANY", "Germany")
  /\ medal_id_spec [("medalImage", JStr "croix.png")] = Some "croix"
  /\ let r := resolve_personnel load pd campaign pilot_name in
     match first_member_match load (lower (strip pilot_name)) (py_sort str_lt (pd_files pd)) with
     | None => r = {| country_code := "GERMANY"; display_name := "Germany";
                      earned_medal_ids := [] |}
     | Some m =>
         (country_code r, display_name r)
         = map_country_to_folder_and_label (upper (field_text m "country"))
         /\ forall ms, py_or (dict_get m "medals" (JList [])) (JList []) = JList ms ->
              Forall (fun x => exists md, x = JObj md) ms ->
              forall id, In id (earned_medal_ids r)
                         <-> exists md, In (JObj md) ms /\ medal_id_spec md = Some id
     end.
Proof.
  split; [reflexivity|]. split; [reflexivity|]. split; [vm_compute; reflexivity|].
  set (files := py_sort str_lt (pd_files pd)).
  assert (Hperm : Permutation files (pd_files pd)) by apply py_sort_perm.
  assert (Hnd : NoDup files) by (apply (Permutation_NoDup (Permutation_sym Hperm)); exact Hnodup).
  assert (Hin : forall p, In p files -> In p (pd_files pd))
    by (intros p Hp; apply (Permutation_in _ Hperm); exact Hp).
  assert (Hm : get_json_many load files = Ok (map (fun p => (p, payload_of load p)) files)).
  { unfold get_json_many. apply (get_json_many_acc_nodup load files Hnd).
    - intros p Hp. apply Hload, Hin, Hp.
    - intros p _ []. }
  destruct (resolve_many_first_match load (lower (strip pilot_name)) files)
    as [l [Hl Hhd]].
  { intros p kv Hp. apply Hcoll, Hin, Hp. }
  unfold resolve_personnel. fold files.
  apply String.eqb_neq in Hcamp, Hpilot. rewrite Hcamp, Hpilot, Hdir. simpl.
  unfold load_many. rewrite Hm. simpl. rewrite Hl.
  destruct (first_member_match load (lower (strip pilot_name)) files) as [m|]; simpl in Hhd.
  - destruct l as [|[[country nm] medals] rest]; [discriminate|].
    injection Hhd as -> -> ->.
    destruct (map_country_to_folder_and_label (upper (field_text m "country"))) as [code label].
    simpl. split; [reflexivity|].
    intros ms Hms Hall id. rewrite Hms. simpl. rewrite (medal_loop_ids ms Hall [] id).
    split; [intros [[]|H]; exact H | intros H; right; exact H].
  - destruct l as [|x rest]; [reflexivity | discriminate].
Qed.

Lemma personnel_resolves_first_match_witness :
  map_country_to_folder_and_label "fr" = ("FRANCE", "France")
  /\ map_country_to_folder_and_label "ITALY" = ("GERMANY", "Germany")
  /\ medal_id_spec [("medalImage", JStr "croix.png")] = Some "croix"
  /\ let r := resolve_personnel (personnel_load "croix.png") personnel_files_dir
                                "Camp" "Hans Schmidt" in
     match first_member_match (personnel_load "croix.png") (lower (strip "Hans Schmidt"))
             (py_sort str_lt (pd_files personnel_files_dir)) with
     | None => r = {| country_code := "GERMANY"; display_name := "Germany";
                      earned_medal_ids := [] |}
     | Some m =>
         (country_code r, display_name r)
         = map_country_to_folder_and_label (upper (field_text m "country"))
         /\ forall ms, py_or (dict_get m "medals" (JList [])) (JList []) = JList ms ->
              Forall (fun x => exists md, x = JObj md) ms ->
              forall id, In id (earned_medal_ids r)
                         <-> exists md, In (JObj md) ms /\ medal_id_spec md = Some id
     end.
Proof.
  apply (personnel_resolves_first_match (personnel_load "croix.png") personnel_files_dir
           "Camp" "Hans Schmidt").
  - reflexivity.
  - vm_compute. discriminate.
  - vm_compute. discriminate.
  - simpl. constructor; [simpl; intros [H|[]]; discriminate|].
    constructor; [intros []|constructor].
  - simpl. intros p [<-|[<-|[]]]; eexists; reflexivity.
  - simpl. intros p kv [<-|[<-|[]]] H; vm_compute in H; injection H as <-;
      eexists; reflexivity.
Defined.

(** ** Further properties of the code *)

(** *** Strings: [strip], [lower], backslashes *)

Lemma ascii_eqb_sym (a b : ascii) : Ascii.eqb a b = Ascii.eqb b a.
Proof.
  destruct (Ascii.eqb a b) eqn:E; destruct (Ascii.eqb b a) eqn:F; try reflexivity.
  - apply Ascii.eqb_eq in E. subst. rewrite Ascii.eqb_refl in F. discriminate.
  - apply Ascii.eqb_eq in F. subst. rewrite Ascii.eqb_refl in E. discriminate.
Qed.

Lemma lstrip_list (s : string) :
  list_ascii_of_string (lstrip s) = lstrip_l (list_ascii_of_string s).
Proof.
  induction s as [|c t IH]; [reflexivity|]. simpl. destruct (is_space c); [exact IH | reflexivity].
Qed.

Lemma rev_string_list (s : string) :
  list_ascii_of_string (rev_string s) = rev (list_ascii_of_string s).
Proof. unfold rev_string. apply list_ascii_of_string_of_list_ascii. Qed.

Lemma strip_list (s : string) :
  list_ascii_of_string (strip s)
  = rev (lstrip_l (rev (lstrip_l (list_ascii_of_string s)))).
Proof. unfold strip. rewrite rev_string_list, lstrip_list, rev_string_list, lstrip_list. reflexivity. Qed.

Lemma list_ascii_inj (a b : string) : list_ascii_of_string a = list_ascii_of_string b -> a = b.
Proof.
  intros H. rewrite <- (string_of_list_ascii_of_string a), <- (string_of_list_ascii_of_string b).
  rewrite H. reflexivity.
Qed.

Lemma lstrip_l_suffix (l : list ascii) : exists p, l = (p ++ lstrip_l l)%list.
Proof.
  induction l as [|c t [p Hp]]; [exists []; reflexivity|]. simpl.
  destruct (is_space c); [exists (c :: p); simpl; rewrite <- Hp; reflexivity | exists []; reflexivity].
Qed.

Lemma lstrip_l_head (l : list ascii) (c : ascii) (t : list ascii) :
  lstrip_l l = c :: t -> is_space c = false.
Proof.
  induction l as [|d u IH]; simpl; [discriminate|].
  destruct (is_space d) eqn:E; [exact IH | intros H; injection H as -> _; exact E].
Qed.

Lemma lstrip_l_fixed (l : list ascii) :
  (forall c t, l = c :: t -> is_space c = false) -> lstrip_l l = l.
Proof. destruct l as [|c t]; intros H; [reflexivity|]. simpl. rewrite (H c t eq_refl). reflexivity. Qed.

Lemma lstrip_l_idem (l : list ascii) : lstrip_l (lstrip_l l) = lstrip_l l.
Proof. apply lstrip_l_fixed. intros c t H. apply (lstrip_l_head l c t H). Qed.

(** [str.strip()] is idempotent. *)
Lemma strip_idem (s : string) : strip (strip s) = strip s.
Proof.
  apply list_ascii_inj. rewrite !strip_list.
  set (a := lstrip_l (list_ascii_of_string s)).
  set (b := lstrip_l (rev a)).
  assert (Hb : lstrip_l (rev b) = rev b).
  { apply lstrip_l_fixed. intros c t Hct.
    destruct (lstrip_l_suffix (rev a)) as [p Hp]. fold b in Hp.
    assert (Ha : a = (rev b ++ rev p)%list).
    { rewrite <- (rev_involutive a), Hp, rev_app_distr. reflexivity. }
    rewrite Hct in Ha. simpl in Ha. apply (lstrip_l_head (list_ascii_of_string s) c (t ++ rev p)).
    exact Ha. }
  rewrite Hb, rev_involutive. unfold b at 1. rewrite lstrip_l_idem. reflexivity.
Qed.

Lemma has_char_list (c : ascii) (s : string) :
  has_char c s = existsb (Ascii.eqb c) (list_ascii_of_string s).
Proof. induction s as [|d t IH]; simpl; [reflexivity | rewrite IH; reflexivity]. Qed.

Lemma in_lstrip_l (x : ascii) (l : list ascii) : In x (lstrip_l l) -> In x l.
Proof.
  destruct (lstrip_l_suffix l) as [p Hp]. intros H. rewrite Hp. apply in_or_app. right. exact H.
Qed.

Lemma has_char_strip (c : ascii) (s : string) :
  has_char c (strip s) = true -> has_char c s = true.
Proof.
  rewrite !has_char_list, strip_list. intros H.
  apply existsb_exists in H as [x [Hx Hcx]]. apply existsb_exists. exists x. split; [|exact Hcx].
  apply in_lstrip_l. apply in_rev. apply in_lstrip_l. apply in_rev. exact Hx.
Qed.

Lemma prefix_ci_has_char (c : ascii) (p : string) :
  forall s r, prefix_ci p s = Some r -> has_char c r = true -> has_char c s = true.
Proof.
  induction p as [|a p IH]; intros s r H Hr; simpl in H.
  - injection H as <-. exact Hr.
  - destruct s as [|b s]; [discriminate|]. simpl in H.
    destruct (Ascii.eqb (lower_char a) (lower_char b)); [|discriminate].
    simpl. rewrite (IH s r H Hr). apply orb_true_r.
Qed.

Lemma rank_tail_backslash (r1 r : string) :
  rank_tail r1 = Some r -> has_char backslash r1 = true.
Proof.
  destruct r1 as [|b r2]; unfold rank_tail; [discriminate|].
  destruct (Ascii.eqb b backslash) eqn:E; [|discriminate].
  intros _. cbn [has_char]. rewrite ascii_eqb_sym, E. reflexivity.
Qed.

Lemma rank_prefix_match_backslash (alts : list string) (s r : string) :
  rank_prefix_match alts s = Some r -> has_char backslash s = true.
Proof.
  induction alts as [|a more IH]; simpl; [discriminate|].
  destruct (prefix_ci a s) as [r1|] eqn:E.
  - destruct (rank_tail r1) as [x|] eqn:T.
    + intros _. apply (prefix_ci_has_char backslash a s r1 E). exact (rank_tail_backslash r1 x T).
    + exact IH.
  - exact IH.
Qed.

Lemma sub_backslash_s_plain (s : string) :
  has_char backslash s = false -> sub_backslash_s_from false s = s.
Proof.
  induction s as [|c t IH]; cbn [has_char sub_backslash_s_from andb]; intros H; [reflexivity|].
  apply orb_false_iff in H as [H1 H2]. rewrite ascii_eqb_sym in H1. rewrite H1, IH by exact H2.
  reflexivity.
Qed.

Lemma is_space_lower_char (c : ascii) : is_space (lower_char c) = is_space c.
Proof. destruct c as [[] [] [] [] [] [] [] []]; reflexivity. Qed.

Lemma upper_lower_char (c : ascii) : upper_char (lower_char c) = upper_char c.
Proof. destruct c as [[] [] [] [] [] [] [] []]; reflexivity. Qed.

Lemma map_string_list (f : ascii -> ascii) (s : string) :
  list_ascii_of_string (map_string f s) = map f (list_ascii_of_string s).
Proof. induction s as [|c t IH]; simpl; [reflexivity | rewrite IH; reflexivity]. Qed.

Lemma lstrip_l_map (f : ascii -> ascii) (l : list ascii) :
  (forall c, is_space (f c) = is_space c) -> lstrip_l (map f l) = map f (lstrip_l l).
Proof.
  intros Hf. induction l as [|c t IH]; [reflexivity|]. simpl. rewrite Hf.
  destruct (is_space c); [exact IH | reflexivity].
Qed.

Lemma strip_lower (s : string) : strip (lower s) = lower (strip s).
Proof.
  apply list_ascii_inj. unfold lower. rewrite strip_list, !map_string_list, strip_list.
  rewrite lstrip_l_map by exact is_space_lower_char. rewrite <- map_rev.
  rewrite lstrip_l_map by exact is_space_lower_char. rewrite <- map_rev. reflexivity.
Qed.

Lemma upper_lower (s : string) : upper (lower s) = upper s.
Proof.
  induction s as [|c t IH]; [reflexivity|]. unfold upper, lower in *. simpl.
  rewrite upper_lower_char, IH. reflexivity.
Qed.

(** X1.  [_clean_pilot_name] on a name with no backslash only trims it:
    the rank-prefix and whitespace patterns both need a literal backslash,
    so e.g. ranks are never removed from ordinary names. *)
Theorem clean_pilot_name_plain (s : string) (H : has_char backslash s = false) :
  clean_pilot_name s = strip s.
Proof.
  unfold clean_pilot_name.
  destruct (rank_prefix_match rank_alternatives s) as [r|] eqn:E.
  - apply rank_prefix_match_backslash in E. congruence.
  - unfold sub_backslash_s. rewrite sub_backslash_s_plain.
    + apply strip_idem.
    + destruct (has_char backslash (strip s)) eqn:F; [|reflexivity].
      apply has_char_strip in F. congruence.
Qed.

Lemma clean_pilot_name_plain_witness :
  has_char backslash " Lt. Hans Schmidt " = false
  /\ clean_pilot_name " Lt. Hans Schmidt " = strip " Lt. Hans Schmidt ".
Proof.
  split; [vm_compute; reflexivity|].
  apply (clean_pilot_name_plain " Lt. Hans Schmidt "). vm_compute. reflexivity.
Defined.

(** *** The country table *)

Lemma map_country_cases (c : string) :
  map_country_to_folder_and_label c = ("GERMANY", "Germany")
  \/ map_country_to_folder_and_label c = ("FRANCE", "France")
  \/ map_country_to_folder_and_label c = ("BRITAIN", "Britain")
  \/ map_country_to_folder_and_label c = ("BELGIAN", "Belgian")
  \/ map_country_to_folder_and_label c = ("USA", "USA").
Proof.
  unfold map_country_to_folder_and_label.
  repeat match goal with |- context [if ?b then _ else _] => destruct b end; tauto.
Qed.

(** X2.  [_map_country_to_folder_and_label] ignores case and surrounding
    whitespace, and every code it returns maps to itself: applying it to
    its own folder code gives the same (folder, label) pair. *)
Theorem map_country_canonical (c : string) :
  map_country_to_folder_and_label (lower c) = map_country_to_folder_and_label c
  /\ map_country_to_folder_and_label (strip c) = map_country_to_folder_and_label c
  /\ map_country_to_folder_and_label (fst (map_country_to_folder_and_label c))
     = map_country_to_folder_and_label c.
Proof.
  split; [unfold map_country_to_folder_and_label; rewrite strip_lower, upper_lower; reflexivity|].
  split; [unfold map_country_to_folder_and_label; rewrite strip_idem; reflexivity|].
  destruct (map_country_cases c) as [H|[H|[H|[H|H]]]]; rewrite H; vm_compute; reflexivity.
Qed.

(** *** Mission-file resolution *)

Lemma filter_subseq {A : Type} (f : A -> bool) (l : list A) : subseq (filter f l) l.
Proof.
  induction l as [|x t IH]; simpl; [constructor|].
  destruct (f x); [apply subseq_take | apply subseq_skip]; exact IH.
Qed.

Lemma find_matches_filter (cands : list string) (pilot_name_clean date_dashed : string) :
  exists g, find_mission_file_matches cands pilot_name_clean date_dashed = filter g cands.
Proof.
  unfold find_mission_file_matches.
  destruct (tierA _ _ _) as [|a ta] eqn:EA.
  - destruct (if String.eqb (lower pilot_name_clean) "" then [] else _) as [|b tb] eqn:EB.
    + destruct (tierC _ _) as [|c tc] eqn:EC.
      * eexists. unfold tierD. reflexivity.
      * rewrite <- EC. eexists. unfold tierC. reflexivity.
    + rewrite <- EB. destruct (String.eqb (lower pilot_name_clean) ""); [discriminate|].
      eexists. unfold tierB. reflexivity.
  - rewrite <- EA. eexists. unfold tierA. reflexivity.
Qed.

(** X3.  [_find_mission_file_matches] only selects: its result keeps some
    of the candidates in their order, and it is non-empty as soon as one
    candidate's name contains the dashed date (case-insensitively). *)
Theorem find_matches_subseq (cands : list string) (pilot_name_clean date_dashed : string) :
  subseq (find_mission_file_matches cands pilot_name_clean date_dashed) cands
  /\ (forall f, In f cands -> contains (lower date_dashed) (lower f) = true ->
        find_mission_file_matches cands pilot_name_clean date_dashed <> []).
Proof.
  split.
  - destruct (find_matches_filter cands pilot_name_clean date_dashed) as [g ->]. apply filter_subseq.
  - intros f Hf Hc. unfold find_mission_file_matches.
    destruct (tierA _ _ _) as [|a ta]; [|discriminate].
    destruct (if String.eqb (lower pilot_name_clean) "" then [] else _) as [|b tb]; [|discriminate].
    destruct (tierC cands (lower date_dashed)) as [|c tc] eqn:EC; [|discriminate].
    assert (Hin : In f (tierC cands (lower date_dashed))) by (apply filter_In; split; assumption).
    rewrite EC in Hin. destruct Hin.
Qed.

(** *** Mission-file candidates *)

Lemma dedup_candidates_no_os (resolve : string -> res string) (ps : list string) :
  forall seen e, dedup_candidates resolve seen ps = Raise e -> catches [OSError] e = false.
Proof.
  induction ps as [|p t IH]; intros seen e H; simpl in H; [discriminate|].
  destruct (resolve p) as [r|e'] eqn:R; cbn [try_except bind] in H.
  - destruct (existsb (String.eqb r) seen); [exact (IH _ _ H)|].
    destruct (dedup_candidates resolve (r :: seen) t) eqn:D; cbn [bind] in H;
      [discriminate | injection H as ->; exact (IH _ _ D)].
  - destruct (catches [OSError] e') eqn:C; cbn [bind] in H.
    + destruct (existsb (String.eqb p) seen); [exact (IH _ _ H)|].
      destruct (dedup_candidates resolve (p :: seen) t) eqn:D; cbn [bind] in H;
        [discriminate | injection H as ->; exact (IH _ _ D)].
    + injection H as ->. exact C.
Qed.

Lemma dedup_candidates_props (resolve : string -> res string) (ps : list string) :
  forall seen out, dedup_candidates resolve seen ps = Ok out ->
  NoDup (map (resolved_key resolve) out)
  /\ (forall q, In q out -> ~ In (resolved_key resolve q) seen)
  /\ subseq out ps
  /\ (forall p, In p ps ->
        In (resolved_key resolve p) seen
        \/ exists q, In q out /\ resolved_key resolve q = resolved_key resolve p).
Proof.
  induction ps as [|p t IH]; intros seen out H; simpl in H.
  - injection H as <-. repeat split; [constructor | intros q [] | constructor | intros p []].
  - destruct (try_except (resolve p) [OSError] (fun _ => Ok p)) as [r|e] eqn:R;
      cbn [bind] in H; [|discriminate].
    assert (Kp : resolved_key resolve p = r) by (unfold resolved_key; rewrite R; reflexivity).
    destruct (existsb (String.eqb r) seen) eqn:X.
    + destruct (IH seen out H) as [N [F [S C]]].
      repeat split; [exact N | exact F | apply subseq_skip; exact S|].
      intros x [<-|Hx]; [|exact (C x Hx)].
      left. rewrite Kp. apply existsb_exists in X as [y [Hy E]].
      apply String.eqb_eq in E. subst. exact Hy.
    + destruct (dedup_candidates resolve (r :: seen) t) as [rest|e] eqn:D;
        cbn [bind] in H; [|discriminate].
      injection H as <-.
      destruct (IH (r :: seen) rest D) as [N [F [S C]]].
      assert (Nr : ~ In r seen).
      { intros Hr. assert (existsb (String.eqb r) seen = true) by
          (apply existsb_exists; exists r; split; [exact Hr | apply String.eqb_refl]).
        congruence. }
      repeat split.
      * simpl. constructor; [|exact N]. rewrite Kp. intros Hin.
        apply in_map_iff in Hin as [q [Hq Hin]]. apply (F q Hin). left. symmetry. exact Hq.
      * intros q [<-|Hq]; [rewrite Kp; exact Nr|].
        intros Hs. apply (F q Hq). right. exact Hs.
      * apply subseq_take. exact S.
      * intros x [<-|Hx]; [right; exists p; split; [left|]; reflexivity|].
        destruct (C x Hx) as [[E|E]|[q [Hq E]]].
        -- right. exists p. split; [left; reflexivity | congruence].
        -- left. exact E.
        -- right. exists q. split; [right; exact Hq | exact E].
Qed.

(** X4.  Once the three globs have listed their files,
    [_collect_mission_file_candidates] returns each resolved file once:
    no two results resolve to the same path, the results keep the glob
    order, and every globbed file is represented by a result resolving to
    the same path. *)
Theorem collect_candidates_unique (c1 c2 c3 : list string) (resolve : string -> res string)
  (out : list string)
  (H : collect_mission_file_candidates (Ok c1) (Ok c2) (Ok c3) resolve = Ok out) :
  NoDup (map (resolved_key resolve) out)
  /\ subseq out (c1 ++ c2 ++ c3)%list
  /\ (forall p, In p (c1 ++ c2 ++ c3)%list ->
        exists q, In q out /\ resolved_key resolve q = resolved_key resolve p).
Proof.
  unfold collect_mission_file_candidates in H. cbn [bind] in H.
  destruct (dedup_candidates resolve [] (c1 ++ c2 ++ c3)%list) as [o|e] eqn:D.
  - cbn [try_except] in H. injection H as <-.
    destruct (dedup_candidates_props resolve _ [] o D) as [N [_ [S C]]].
    repeat split; [exact N | exact S|].
    intros p Hp. destruct (C p Hp) as [[]|E]. exact E.
  - cbn [try_except] in H. rewrite (dedup_candidates_no_os resolve _ [] e D) in H. discriminate.
Qed.

Lemma collect_candidates_unique_witness :
  collect_mission_file_candidates (Ok ["a.MissionData.json"]) (Ok ["a.MissionData.json"])
    (Ok ["a.MissionData.json"; "b.json"]) (fun p => Ok p)
  = Ok ["a.MissionData.json"; "b.json"]
  /\ NoDup (map (resolved_key (fun p => Ok p)) ["a.MissionData.json"; "b.json"])
  /\ subseq ["a.MissionData.json"; "b.json"]
       (["a.MissionData.json"] ++ ["a.MissionData.json"] ++ ["a.MissionData.json"; "b.json"])%list
  /\ (forall p, In p (["a.MissionData.json"] ++ ["a.MissionData.json"]
                       ++ ["a.MissionData.json"; "b.json"])%list ->
        exists q, In q ["a.MissionData.json"; "b.json"]
                  /\ resolved_key (fun p => Ok p) q = resolved_key (fun p => Ok p) p).
Proof.
  split; [vm_compute; reflexivity|].
  apply (collect_candidates_unique ["a.MissionData.json"] ["a.MissionData.json"]
           ["a.MissionData.json"; "b.json"] (fun p => Ok p)).
  vm_compute. reflexivity.
Defined.

(** *** Combat reports *)

Lemma sorted_map_in {A B : Type} (R : A -> A -> Prop) (R' : B -> B -> Prop) (g : A -> B)
  (l : list A) :
  (forall x y, In x l -> In y l -> R x y -> R' (g x) (g y)) -> Sorted R l -> Sorted R' (map g l).
Proof.
  induction l as [|x t IH]; intros H Hs; [constructor|].
  inversion Hs as [|? ? Ht Hhd]; subst. simpl. constructor.
  - apply IH; [intros a b Ha Hb; apply H; right; assumption | exact Ht].
  - destruct t as [|y u]; constructor. inversion Hhd; subst.
    apply H; [left; reflexivity | right; left; reflexivity | assumption].
Qed.

Lemma stat_pairs (rd : reports_dir) (l : list string) :
  forall ps, map_res (fun f => mtime <- try_except (rd_mtime rd f) [OSError] (fun _ => Ok 0%Z) ;;
                               Ok (mtime, f)) l = Ok ps ->
  ps = map (fun f => (eff_mtime rd f, f)) l.
Proof.
  induction l as [|f t IH]; intros ps H; cbn [map_res] in H; [injection H as <-; reflexivity|].
  destruct (try_except (rd_mtime rd f) [OSError] (fun _ => Ok 0%Z)) as [z|e] eqn:E;
    cbn [bind] in H; [|discriminate].
  destruct (map_res _ t) as [qs|e] eqn:T; cbn [bind] in H; [|discriminate].
  injection H as <-. simpl. f_equal; [|exact (IH qs eq_refl)].
  unfold eff_mtime. rewrite E. reflexivity.
Qed.

Lemma load_reports_payloads (load : string -> res (option json)) (fs : list string) :
  forall reports, load_reports load fs = Ok reports -> reports = flat_map (report_payload load) fs.
Proof.
  induction fs as [|f t IH]; intros reports H; simpl in H; [injection H as <-; reflexivity|].
  destruct (load f) as [o|e] eqn:L; cbn [bind] in H; [|discriminate].
  destruct (load_reports load t) as [r|e] eqn:T; cbn [bind] in H; [|discriminate].
  injection H as <-. simpl. unfold report_payload at 1. rewrite L, (IH r eq_refl).
  destruct o as [[]|]; reflexivity.
Qed.

(** X5.  When the reports folder exists and [get_combat_reports]
    returns, its reports are the dict payloads of the folder's files taken
    newest first: the files are put in an order that is a permutation of
    the listing with non-increasing modification time (a file whose
    [stat()] fails counting as time 0), and the result keeps, in that
    order, exactly the files whose JSON is an object. *)
Theorem combat_reports_newest_first (load : string -> res (option json)) (rd : reports_dir)
  (reports : list dict) (Hex : rd_exists rd = Ok true)
  (H : get_combat_reports load rd = Ok reports) :
  exists fs, Permutation fs (rd_files rd)
    /\ Sorted (fun a b => (eff_mtime rd b <= eff_mtime rd a)%Z) fs
    /\ reports = flat_map (report_payload load) fs.
Proof.
  unfold get_combat_reports in H. rewrite Hex in H. cbn [bind negb] in H.
  destruct (map_res _ (rd_files rd)) as [ps|e] eqn:P; cbn [bind] in H; [|discriminate].
  apply stat_pairs in P. subst ps.
  set (lt := fun a b : Z * string => Z.ltb (fst b) (fst a)).
  assert (Hasym : forall a b, lt a b = true -> lt b a = false)
    by (intros a b; unfold lt; apply Zltb_asym).
  exists (map snd (sort_by_key_desc Z.ltb fst (map (fun f => (eff_mtime rd f, f)) (rd_files rd)))).
  split; [|split].
  - rewrite <- (map_id (rd_files rd)) at 2.
    replace (map (fun x => x) (rd_files rd))
      with (map snd (map (fun f => (eff_mtime rd f, f)) (rd_files rd)))
      by (rewrite map_map; reflexivity).
    apply Permutation_map. apply (py_sort_perm lt).
  - apply sorted_map_in with (R := not_after lt); [|apply (py_sort_sorted lt Hasym)].
    intros x y Hx Hy Hxy. unfold not_after, lt in Hxy. apply Z.ltb_ge in Hxy.
    apply (Permutation_in _ (py_sort_perm lt _)) in Hx, Hy.
    apply in_map_iff in Hx as [fx [<- _]]. apply in_map_iff in Hy as [fy [<- _]].
    simpl in *. exact Hxy.
  - exact (load_reports_payloads load _ reports H).
Qed.

Lemma combat_reports_newest_first_witness :
  rd_exists sample_reports_dir = Ok true
  /\ get_combat_reports sample_report_load sample_reports_dir
     = Ok [[("date", JStr "19180321")]; [("date", JStr "19180322")]]
  /\ exists fs, Permutation fs (rd_files sample_reports_dir)
       /\ Sorted (fun a b => (eff_mtime sample_reports_dir b <= eff_mtime sample_reports_dir a)%Z) fs
       /\ [[("date", JStr "19180321")]; [("date", JStr "19180322")]]
          = flat_map (report_payload sample_report_load) fs.
Proof.
  split; [reflexivity|]. split; [vm_compute; reflexivity|].
  apply (combat_reports_newest_first sample_report_load sample_reports_dir); [reflexivity|].
  vm_compute. reflexivity.
Defined.

(** *** The campaign list *)

(** X6.  The only exceptions [get_campaigns] lets out are the one the
    existence check [exists()] raises (it is outside the [try]) and
    non-[OSError]s of the listing: an error of [exists()] escapes as it is;
    a missing campaigns folder or a listing that raises [OSError] (or a
    subclass such as [PermissionError]) gives [[]]; and a successful
    listing gives the names of exactly the sub-directories, each once per
    entry, in ascending order. *)
Theorem get_campaigns_sorted_dirs :
  (forall ex entries e, get_campaigns ex entries = Raise e ->
     ex = Raise e \/ catches [OSError] e = false)
  /\ (forall e entries, get_campaigns (Raise e) entries = Raise e)
  /\ (forall entries, get_campaigns (Ok false) entries = Ok [])
  /\ (forall e, catches [OSError] e = true -> get_campaigns (Ok true) (Raise e) = Ok [])
  /\ (forall es, exists out, get_campaigns (Ok true) (Ok es) = Ok out
        /\ Permutation out (map fst (filter snd es))
        /\ Sorted (fun a b => String.leb a b = true) out).
Proof.
  split; [|split; [|split; [|split]]].
  - intros ex entries e. unfold get_campaigns.
    destruct ex as [[]|e0]; cbn [bind negb]; intros H;
      [| discriminate H | injection H as <-; left; reflexivity].
    right. destruct entries as [es|e']; cbn [bind try_except] in H; [discriminate H|].
    destruct (catches [OSError] e') eqn:C; [discriminate H|]. injection H as ->. exact C.
  - reflexivity.
  - reflexivity.
  - intros e C. unfold get_campaigns. cbn [negb bind try_except]. rewrite C. reflexivity.
  - intros es. eexists. split; [reflexivity|]. split; [apply (py_sort_perm str_lt)|].
    eapply sorted_impl_in; [| apply (py_sort_sorted str_lt str_ltb_asym)].
    intros a b _ _ Hab. apply str_ltb_false_leb. exact Hab.
Qed.

(** *** Mission summaries *)

Lemma process_one_report_entry_keys (md : mission_dir) (serial : string) (psid : json) (r : dict)
  (item : string * dict) (psid' : json) :
  process_one_report md serial psid r = Ok (item, psid') -> map fst (snd item) = mission_entry_keys.
Proof.
  unfold process_one_report.
  destruct (try_except _ _ _) as [d|e]; cbn [bind]; [|discriminate].
  intros H. injection H as <- _. reflexivity.
Qed.

Lemma missions_loop_entries (md : mission_dir) (serial : string) (reports : list json) :
  forall psid keyed psid',
    missions_loop md serial psid reports = Ok (keyed, psid') ->
    Forall (fun it => map fst (snd it) = mission_entry_keys) keyed.
Proof.
  induction reports as [|j rest IH]; intros psid keyed psid' H; simpl in H.
  - injection H as <- _. constructor.
  - destruct j; try (apply (IH psid keyed psid' H)).
    destruct (process_one_report md serial psid kv) as [[item p1]|e] eqn:E; simpl in H;
      [|discriminate].
    destruct (missions_loop md serial p1 rest) as [[items p2]|e] eqn:E2; simpl in H;
      [|discriminate].
    injection H as <- _. constructor.
    + apply (process_one_report_entry_keys md serial psid kv item p1 E).
    + apply (IH p1 items p2 E2).
Qed.

Lemma process_missions_data_shape (md : mission_dir) (reports : list json) (serial : string)
  (missions : list dict) (psid : json) :
  process_missions_data md reports serial = Ok (missions, psid) ->
  length missions = length (dict_reports reports)
  /\ Forall (fun m => map fst m = mission_entry_keys) missions.
Proof.
  unfold process_missions_data. intros H.
  destruct (missions_loop md serial JNull reports) as [[keyed p]|e] eqn:E; cbn [bind] in H;
    [|discriminate].
  injection H as <- _.
  pose proof (missions_loop_keys md serial reports JNull keyed p E) as Hk.
  pose proof (missions_loop_entries md serial reports JNull keyed p E) as He.
  split.
  - rewrite length_map. unfold sort_by_key. rewrite (Permutation_length (py_sort_perm _ _)).
    rewrite <- (length_map fst keyed), Hk, length_map. reflexivity.
  - apply Forall_map. apply Forall_forall. intros x Hx.
    apply (Permutation_in _ (py_sort_perm _ _)) in Hx.
    rewrite Forall_forall in He. exact (He x Hx).
Qed.

(** X7.  Whenever [process_missions_data] returns, it gives one mission
    summary per dict report (other reports are skipped) and every summary
    has exactly the keys date, time, aircraft, duty, locality, airfield,
    pilots, weather, description and haReport, in that order. *)
Theorem missions_one_summary_per_report (md : mission_dir) (reports : list json) (serial : string)
  (missions : list dict) (psid : json) :
  process_missions_data md reports serial = Ok (missions, psid) ->
  length missions = length (filter is_obj reports)
  /\ Forall (fun m => map fst m = mission_entry_keys) missions.
Proof.
  intros H. destruct (process_missions_data_shape md reports serial missions psid H) as [L F].
  split; [|exact F]. rewrite L. clear.
  induction reports as [|j t IH]; [reflexivity|]. destruct j; simpl; auto.
Qed.

Lemma missions_one_summary_per_report_witness :
  exists missions psid,
    process_missions_data no_mission_dir dated_reports "1" = Ok (missions, psid)
    /\ length missions = length (filter is_obj dated_reports)
    /\ Forall (fun m => map fst m = mission_entry_keys) missions.
Proof.
  exists (match process_missions_data no_mission_dir dated_reports "1" with
          | Ok (m, _) => m
          | Raise _ => []
          end), JNull.
  split; [vm_compute; reflexivity|].
  apply (missions_one_summary_per_report no_mission_dir dated_reports "1" _ JNull).
  vm_compute. reflexivity.
Defined.

Lemma squadron_id_from_planes_empty (serial : string) : squadron_id_from_planes [] serial = None.
Proof. reflexivity. Qed.

Lemma process_one_report_nodir (md : mission_dir) (serial : string) (psid : json) (r : dict) :
  md_exists md = false ->
  exists item, process_one_report md serial psid r = Ok (item, psid)
    /\ dict_lookup (snd item) "airfield" = Some (JStr "NA")
    /\ dict_lookup (snd item) "weather" = Some (JStr not_available)
    /\ dict_lookup (snd item) "description" = Some (JStr no_description).
Proof.
  intros Hmd. unfold process_one_report, get_mission_data. rewrite Hmd.
  cbn [negb bind try_except]. rewrite squadron_id_from_planes_empty.
  eexists. split; [destruct (truthy psid); reflexivity|].
  split; [reflexivity|]. split; reflexivity.
Qed.

Lemma missions_loop_nodir (md : mission_dir) (serial : string) (reports : list json) :
  md_exists md = false ->
  forall psid, exists keyed, missions_loop md serial psid reports = Ok (keyed, psid)
    /\ Forall (fun it => dict_lookup (snd it) "airfield" = Some (JStr "NA")
                         /\ dict_lookup (snd it) "weather" = Some (JStr not_available)
                         /\ dict_lookup (snd it) "description" = Some (JStr no_description)) keyed.
Proof.
  intros Hmd. induction reports as [|j rest IH]; intros psid.
  - exists []. split; [reflexivity | constructor].
  - destruct j; try (apply (IH psid)).
    destruct (process_one_report_nodir md serial psid kv Hmd) as [item [E P]].
    destruct (IH psid) as [keyed [E2 F]].
    exists (item :: keyed). split; [simpl; rewrite E; simpl; rewrite E2; reflexivity|].
    constructor; assumption.
Qed.

(** X8.  Without a MissionData folder [process_missions_data] always
    returns, with no squadron id ([None]) and one summary per dict report,
    each with airfield "NA", weather "Não disponível" and the
    "mission description not found" text. *)
Theorem missions_without_mission_dir (md : mission_dir) (reports : list json) (serial : string)
  (Hmd : md_exists md = false) :
  exists missions, process_missions_data md reports serial = Ok (missions, JNull)
    /\ length missions = length (filter is_obj reports)
    /\ Forall (fun m => dict_lookup m "airfield" = Some (JStr "NA")
                        /\ dict_lookup m "weather" = Some (JStr not_available)
                        /\ dict_lookup m "description" = Some (JStr no_description)) missions.
Proof.
  destruct (missions_loop_nodir md serial reports Hmd JNull) as [keyed [E F]].
  set (missions := map snd (sort_by_key mission_key_lt mission_sort_key keyed)).
  assert (Hp : process_missions_data md reports serial = Ok (missions, JNull))
    by (unfold process_missions_data; rewrite E; reflexivity).
  exists missions. split; [exact Hp|]. split.
  - destruct (process_missions_data_shape md reports serial missions JNull Hp) as [L _].
    rewrite L. clear. induction reports as [|j t IH]; [reflexivity|]. destruct j; simpl; auto.
  - apply Forall_map. apply Forall_forall. intros x Hx.
    apply (Permutation_in _ (py_sort_perm _ _)) in Hx.
    rewrite Forall_forall in F. exact (F x Hx).
Qed.

Lemma missions_without_mission_dir_witness :
  md_exists no_mission_dir = false
  /\ exists missions, process_missions_data no_mission_dir dated_reports "1" = Ok (missions, JNull)
    /\ length missions = length (filter is_obj dated_reports)
    /\ Forall (fun m => dict_lookup m "airfield" = Some (JStr "NA")
                        /\ dict_lookup m "weather" = Some (JStr not_available)
                        /\ dict_lookup m "description" = Some (JStr no_description)) missions.
Proof.
  split; [reflexivity|]. apply (missions_without_mission_dir no_mission_dir dated_reports "1").
  reflexivity.
Defined.

(** *** Squadron roster and aces: counts and errors *)

Lemma map_res_length {A B : Type} (f : A -> res B) (l : list A) :
  forall out, map_res f l = Ok out -> length out = length l.
Proof.
  induction l as [|x t IH]; intros out H; simpl in H; [injection H as <-; reflexivity|].
  destruct (f x); cbn [bind] in H; [|discriminate].
  destruct (map_res f t) as [o|e] eqn:E; cbn [bind] in H; [|discriminate].
  injection H as <-. simpl. rewrite (IH o eq_refl). reflexivity.
Qed.

Lemma map_res_raise {A B : Type} (f : A -> res B) (l : list A) (e : exc) :
  map_res f l = Raise e -> exists x, In x l /\ f x = Raise e.
Proof.
  induction l as [|x t IH]; simpl; [discriminate|].
  destruct (f x) as [b|e'] eqn:F; cbn [bind].
  - destruct (map_res f t) as [o|e'] eqn:E; cbn [bind]; [discriminate|].
    intros H. injection H as ->. destruct (IH eq_refl) as [y [Hy Fy]].
    exists y. split; [right; exact Hy | exact Fy].
  - intros H. injection H as ->. exists x. split; [left; reflexivity | exact F].
Qed.


(** X9.  [process_squadron_data] returns one roster entry per member of
    [squadronMemberCollection] (none for a falsy argument), and the only
    errors it lets out are [AttributeError] (a non-dict argument,
    collection or member) and [TypeError] (a list or dict status). *)
Theorem squadron_roster_one_per_member (sp : json) :
  (forall roster, process_squadron_data sp = Ok roster ->
     length roster = match sp with
                     | JObj d => match py_or (dict_get d "squadronMemberCollection" (JObj [])) (JObj []) with
                                 | JObj coll => length coll
                                 | _ => 0%nat
                                 end
                     | _ => 0%nat
                     end)
  /\ (forall e, process_squadron_data sp = Raise e -> e = AttributeError \/ e = TypeError).
Proof.
  unfold process_squadron_data. destruct (truthy sp) eqn:T; cbn [negb].
  - destruct sp as [| | | | | |d]; try (split; [discriminate | intros e H; injection H as <-; left; reflexivity]).
    destruct (py_or (dict_get d "squadronMemberCollection" (JObj [])) (JObj [])) as [| | | | | |coll];
      try (split; [discriminate | intros e H; injection H as <-; left; reflexivity]).
    destruct (map_res squadron_member (dict_values coll)) as [o|e] eqn:M; cbn [bind].
    + split; [|discriminate]. intros roster H. injection H as <-.
      unfold sort_by_key_desc. rewrite (Permutation_length (py_sort_perm _ _)).
      rewrite (map_res_length _ _ o M). apply length_map.
    + split; [discriminate|]. intros e' H. injection H as <-.
      destruct (map_res_raise _ _ _ M) as [x [_ Hx]]. exact (squadron_member_raise x e Hx).
  - split; [|discriminate]. intros roster H. injection H as <-.
    destruct sp as [| | | | | |d]; try reflexivity.
    destruct d; [reflexivity | discriminate].
Qed.

Lemma map_res_ace_entry (l : list json) :
  (forallb is_obj l = true -> exists o, map_res ace_entry l = Ok o /\ length o = length l)
  /\ (forallb is_obj l = false -> map_res ace_entry l = Raise AttributeError).
Proof.
  induction l as [|a t [IH1 IH2]]; [split; [exists []; split; reflexivity | discriminate]|].
  destruct a as [| | | | | |kv]; simpl;
    try (split; [discriminate | reflexivity]).
  split.
  - intros H. destruct (IH1 H) as [o [E L]]. rewrite E. cbn [bind].
    eexists. split; [reflexivity|]. simpl. rewrite L. reflexivity.
  - intros H. rewrite (IH2 H). reflexivity.
Qed.

(** X10.  [process_aces_data] raises [AttributeError] exactly when some
    ace is not a dict; otherwise it returns one entry per ace. *)
Theorem aces_one_entry_per_ace (aces : list json) :
  (forallb is_obj aces = true ->
     exists out, process_aces_data aces = Ok out /\ length out = length aces)
  /\ (forallb is_obj aces = false -> process_aces_data aces = Raise AttributeError).
Proof.
  destruct (map_res_ace_entry aces) as [H1 H2].
  destruct aces as [|a t]; [split; [exists []; split; reflexivity | discriminate]|].
  unfold process_aces_data. split.
  - intros H. destruct (H1 H) as [o [E L]]. rewrite E. cbn [bind].
    eexists. split; [reflexivity|]. unfold sort_by_key_desc.
    rewrite (Permutation_length (py_sort_perm _ _)). exact L.
  - intros H. rewrite (H2 H). reflexivity.
Qed.

(** *** Pilot summary and the campaign result *)

Lemma py_or_truthy (a b : json) : truthy b = true -> truthy (py_or a b) = true.
Proof. unfold py_or. destruct (truthy a) eqn:E; auto. Qed.

(** X11.  [process_pilot_data] always gives the keys name, squadron and
    total_missions, in that order; name and squadron are never falsy ("NA"
    stands in); total_missions is the number of dict reports; and for a
    campaign_info that is not a dict the result is name "NA", squadron "NA"
    and total_missions 0. *)
Theorem pilot_summary_shape (info : json) (reports : list json) :
  map fst (process_pilot_data info reports) = ["name"; "squadron"; "total_missions"]
  /\ (forall v, dict_lookup (process_pilot_data info reports) "name" = Some v -> truthy v = true)
  /\ (forall v, dict_lookup (process_pilot_data info reports) "squadron" = Some v -> truthy v = true)
  /\ dict_lookup (process_pilot_data info reports) "total_missions"
     = Some (JInt (if is_obj info then Z.of_nat (length (filter is_obj reports)) else 0))
  /\ (is_obj info = false ->
      process_pilot_data info reports
      = [("name", JStr "NA"); ("squadron", JStr "NA"); ("total_missions", JInt 0)]).
Proof.
  destruct info as [| | | | | |ci];
    try (split; [reflexivity|]; split; [intros v H; injection H as <-; reflexivity|];
         split; [intros v H; injection H as <-; reflexivity|]; split; reflexivity).
  split; [reflexivity|]. split; [|split; [|split; [reflexivity | discriminate]]].
  - intros v H. injection H as <-. apply py_or_truthy. reflexivity.
  - intros v H. injection H as <-. apply py_or_truthy. reflexivity.
Qed.

Lemma filter_is_obj_map (l : list dict) : filter is_obj (map JObj l) = map JObj l.
Proof. induction l as [|d t IH]; simpl; [reflexivity | rewrite IH; reflexivity]. Qed.

Lemma dict_reports_map (l : list dict) : dict_reports (map JObj l) = l.
Proof. induction l as [|d t IH]; simpl; [reflexivity | rewrite IH; reflexivity]. Qed.

(** X12.  Whenever [process_campaign] returns, the result is either
    [{}] (falsy campaign info) or the four sections pilot, missions,
    squadron and aces, in that order, where the pilot's total_missions is
    exactly the number of mission summaries. *)
Theorem campaign_total_matches_missions (src : campaign_source) (out : dict)
  (H : process_campaign src = Ok out) :
  out = []
  \/ exists pilot missions squadron aces,
       out = [("pilot", JObj pilot); ("missions", JList (map JObj missions));
              ("squadron", JList (map JObj squadron)); ("aces", JList (map JObj aces))]
       /\ dict_lookup pilot "total_missions" = Some (JInt (Z.of_nat (length missions))).
Proof.
  unfold process_campaign in H.
  destruct (cs_campaign_info src) as [info|e]; cbn [bind] in H; [|discriminate].
  destruct (truthy info); cbn [negb] in H; [|left; injection H as <-; reflexivity].
  destruct info as [| | | | | |ci]; try discriminate.
  destruct (cs_combat_reports src _) as [crs|e]; cbn [bind] in H; [|discriminate].
  destruct (process_missions_data _ (map JObj crs) _) as [[missions psid]|e] eqn:PM;
    cbn [bind] in H; [|discriminate].
  destruct (if truthy psid then _ else _) as [sq|e]; cbn [bind] in H; [|discriminate].
  destruct (cs_aces src) as [aces_raw|e]; cbn [bind] in H; [|discriminate].
  destruct (process_aces_data aces_raw) as [aces|e]; cbn [bind] in H; [|discriminate].
  injection H as <-. right. do 4 eexists. split; [reflexivity|].
  destruct (process_missions_data_shape _ _ _ _ _ PM) as [L _].
  rewrite dict_reports_map in L.
  transitivity (Some (JInt (Z.of_nat (length (filter is_obj (map JObj crs)))))); [reflexivity|].
  rewrite filter_is_obj_map, length_map. do 3 f_equal. symmetry. exact L.
Qed.

Lemma campaign_total_matches_missions_witness :
  exists out, process_campaign sample_campaign = Ok out
  /\ (out = []
      \/ exists pilot missions squadron aces,
           out = [("pilot", JObj pilot); ("missions", JList (map JObj missions));
                  ("squadron", JList (map JObj squadron)); ("aces", JList (map JObj aces))]
           /\ dict_lookup pilot "total_missions" = Some (JInt (Z.of_nat (length missions)))).
Proof.
  exists (match process_campaign sample_campaign with Ok o => o | Raise _ => [] end).
  split; [vm_compute; reflexivity|].
  apply (campaign_total_matches_missions sample_campaign). vm_compute. reflexivity.
Defined.

(** *** [format_date] *)

Lemma digit_char_facts (c : ascii) :
  is_digit c = true ->
  (0 <= Z.of_nat (nat_of_ascii c - 48) <= 9)
  /\ ascii_of_nat (48 + Z.to_nat (Z.of_nat (nat_of_ascii c - 48))) = c.
Proof.
  unfold is_digit. intros H. apply andb_prop in H as [H1 H2].
  apply Nat.leb_le in H1, H2. split; [lia|].
  rewrite Nat2Z.id. replace (48 + (nat_of_ascii c - 48))%nat with (nat_of_ascii c) by lia.
  apply ascii_nat_embedding.
Qed.

Ltac digit_goal :=
  match goal with
  | H : ascii_of_nat (48 + Z.to_nat ?a) = ?c |- ascii_of_nat (48 + Z.to_nat ?x) = ?c =>
      rewrite <- H; do 3 f_equal; Z.to_euclidean_division_equations; lia
  end.

(** X13.  [format_date] only rearranges the characters of an accepted
    date: for eight digits YYYYMMDD with a year from 1000 on, that
    [strptime] accepts, the result is DD/MM/YYYY built from the same
    digits; a date [strptime] rejects is returned unchanged. *)
Theorem format_date_rearranges (c0 c1 c2 c3 c4 c5 c6 c7 : ascii)
  (Hd : forallb is_digit [c0; c1; c2; c3; c4; c5; c6; c7] = true)
  (H0 : c0 <> "0"%char) :
  format_date (string_of_list_ascii [c0; c1; c2; c3; c4; c5; c6; c7])
  = match strptime_ymd (string_of_list_ascii [c0; c1; c2; c3; c4; c5; c6; c7]) with
    | Some _ => string_of_list_ascii [c6; c7; "/"%char; c4; c5; "/"%char; c0; c1; c2; c3]
    | None => string_of_list_ascii [c0; c1; c2; c3; c4; c5; c6; c7]
    end.
Proof.
  simpl in Hd. repeat rewrite andb_true_iff in Hd.
  destruct Hd as [D0 [D1 [D2 [D3 [D4 [D5 [D6 [D7 _]]]]]]]].
  destruct (digit_char_facts c0 D0) as [B0 E0]. destruct (digit_char_facts c1 D1) as [B1 E1].
  destruct (digit_char_facts c2 D2) as [B2 E2]. destruct (digit_char_facts c3 D3) as [B3 E3].
  destruct (digit_char_facts c4 D4) as [B4 E4]. destruct (digit_char_facts c5 D5) as [B5 E5].
  destruct (digit_char_facts c6 D6) as [B6 E6]. destruct (digit_char_facts c7 D7) as [B7 E7].
  assert (A0 : 1 <= Z.of_nat (nat_of_ascii c0 - 48)).
  { destruct (Z.eq_dec (Z.of_nat (nat_of_ascii c0 - 48)) 0) as [Z0|Z0]; [|lia].
    exfalso. apply H0. rewrite <- E0, Z0. reflexivity. }
  set (s := string_of_list_ascii [c0; c1; c2; c3; c4; c5; c6; c7]).
  unfold format_date.
  replace (String.eqb s "" || negb (Nat.eqb (String.length s) 8) || negb (isdigit s)) with false
    by (unfold s, isdigit; simpl; rewrite D0, D1, D2, D3, D4, D5, D6, D7; reflexivity).
  destruct (strptime_ymd s) as [[[y m] d]|] eqn:E; [|reflexivity].
  unfold strptime_ymd in E. cbv zeta in E.
  destruct (_ && _) in E; [|discriminate]. injection E as Ey Em Ed.
  unfold digit_at in Ey, Em, Ed. simpl in Ey, Em, Ed.
  set (a0 := Z.of_nat (nat_of_ascii c0 - 48)) in *. set (a1 := Z.of_nat (nat_of_ascii c1 - 48)) in *.
  set (a2 := Z.of_nat (nat_of_ascii c2 - 48)) in *. set (a3 := Z.of_nat (nat_of_ascii c3 - 48)) in *.
  set (a4 := Z.of_nat (nat_of_ascii c4 - 48)) in *. set (a5 := Z.of_nat (nat_of_ascii c5 - 48)) in *.
  set (a6 := Z.of_nat (nat_of_ascii c6 - 48)) in *. set (a7 := Z.of_nat (nat_of_ascii c7 - 48)) in *.
  unfold strftime_dmy, fmt_year, pad2, z_to_string.
  replace (y <? 0) with false by (symmetry; apply Z.ltb_ge; lia).
  assert (Hf : (3 <= Z.to_nat (Z.log2 (Z.abs y)))%nat).
  { rewrite Z.abs_eq by lia.
    assert (Hl : Z.log2 8 <= Z.log2 y) by (apply Z.log2_le_mono; lia).
    change (Z.log2 8) with 3 in Hl. lia. }
  destruct (Z.to_nat (Z.log2 (Z.abs y))) as [|[|[|f]]]; try lia.
  cbn [digits_of_pos_acc].
  repeat match goal with
         | |- context [(?x <? 10)] =>
             let L := fresh "L" in
             destruct (Z.ltb_spec x 10) as [L|L];
             try (exfalso; Z.to_euclidean_division_equations; lia)
         end.
  cbn [String.append string_of_list_ascii char_str]. repeat f_equal; digit_goal.
Qed.

Lemma format_date_rearranges_witness :
  forallb is_digit ["1"; "9"; "1"; "8"; "0"; "3"; "2"; "1"]%char = true
  /\ "1"%char <> "0"%char
  /\ format_date "19180321" = "21/03/1918".
Proof.
  split; [reflexivity|]. split; [discriminate|].
  exact (format_date_rearranges "1" "9" "1" "8" "0" "3" "2" "1" eq_refl
           (fun H : "1"%char = "0"%char => ltac:(discriminate H))).
Defined.

(** *** Loading JSON files *)

Lemma load_json_file_never_decode_error (json_loads : list Z -> res json)
  (fs : string -> file_state) (path : string) (e : exc) :
  load_json_file json_loads fs path = Raise e ->
  catches [JSONDecodeError] e = false
  /\ ((fs path = FExistsRaises /\ e = PermissionError) \/ exists bs, fs path = FBytes bs).
Proof.
  unfold load_json_file. destruct (fs path) as [| | |bs]; try discriminate.
  - intros H. injection H as <-. split; [reflexivity | left; split; reflexivity].
  - intros H. split; [|right; exists bs; reflexivity]. revert H. unfold load_attempt.
    destruct (match utf8_decode_strict bs with
              | Some text => json_loads (universal_newlines text)
              | None => Raise UnicodeDecodeError end) as [v1|e1]; [discriminate|].
    destruct (catches [JSONDecodeError] e1) eqn:C1;
      [|intros H; injection H as <-; exact C1].
    destruct (json_loads (universal_newlines (latin1_decode bs))) as [v2|e2]; [discriminate|].
    destruct (catches [JSONDecodeError] e2) eqn:C2;
      [|intros H; injection H as <-; exact C2].
    destruct (json_loads (universal_newlines (utf8_decode_replace bs))) as [v3|e3];
      [discriminate|].
    destruct (catches [OSError; JSONDecodeError] e3) eqn:C3; [discriminate|].
    intros H. injection H as <-. destruct e3; cbn in C3 |- *; congruence.
Qed.

(** X14.  How the JSON loader fails.  [_load_json_file] raises
    [PermissionError] when [exists()] raises it, [UnicodeDecodeError] for
    a file that is not valid UTF-8, and any exception of [json.loads] on
    the UTF-8 text other than [JSONDecodeError] ([ValueError],
    [RecursionError]); it returns the document when that text parses, and
    it never raises [JSONDecodeError].  [get_json_data] raises only what
    [_load_json_file] raises on the path as given, or an exception that
    its [except (TypeError, ValueError, OSError)] does not catch, coming
    from [resolve()] or from loading the resolved path.  So a [ValueError]
    of [json.loads] escapes [get_json_data]: caught once, it is raised
    again by the fallback. *)
Theorem loader_failures (json_loads : list Z -> res json)
  (fs : string -> file_state) (resolve : string -> res string) (path : string) :
  (fs path = FExistsRaises -> load_json_file json_loads fs path = Raise PermissionError)
  /\ (forall bs, fs path = FBytes bs -> utf8_decode_strict bs = None ->
        load_json_file json_loads fs path = Raise UnicodeDecodeError)
  /\ (forall bs text v, fs path = FBytes bs -> utf8_decode_strict bs = Some text ->
        json_loads (universal_newlines text) = Ok v ->
        load_json_file json_loads fs path = Ok (Some v))
  /\ (forall bs text e, fs path = FBytes bs -> utf8_decode_strict bs = Some text ->
        json_loads (universal_newlines text) = Raise e ->
        catches [JSONDecodeError] e = false ->
        load_json_file json_loads fs path = Raise e)
  /\ (forall e, load_json_file json_loads fs path = Raise e ->
        catches [JSONDecodeError] e = false
        /\ ((fs path = FExistsRaises /\ e = PermissionError) \/ exists bs, fs path = FBytes bs))
  /\ (forall e, get_json_data json_loads fs resolve path = Raise e ->
        load_json_file json_loads fs path = Raise e
        \/ (resolve path = Raise e /\ catches [TypeError; ValueError; OSError] e = false)
        \/ (exists r, resolve path = Ok r /\ load_json_file json_loads fs r = Raise e
                      /\ catches [TypeError; ValueError; OSError] e = false))
  /\ get_json_data (fun _ => Raise ValueError) batch_fs ok_resolve "a.json" = Raise ValueError
  /\ get_json_data (fun _ => Raise RecursionError) batch_fs ok_resolve "a.json"
     = Raise RecursionError.
Proof.
  split; [intros F; unfold load_json_file; rewrite F; reflexivity|].
  split; [intros bs F U; unfold load_json_file; rewrite F, U; reflexivity|].
  split; [intros bs text v F U J; unfold load_json_file, load_attempt; rewrite F, U, J;
          reflexivity|].
  split; [intros bs text e F U J C; unfold load_json_file, load_attempt; rewrite F, U, J, C;
          reflexivity|].
  split; [intros e; apply load_json_file_never_decode_error|].
  split; [|split; reflexivity].
  intros e. unfold get_json_data, try_except.
  destruct (resolve path) as [r|e'] eqn:R; cbn [bind].
  - destruct (load_json_file json_loads fs r) as [v|e1] eqn:L; [discriminate|].
    destruct (catches [TypeError; ValueError; OSError] e1) eqn:C.
    + intros H. left. exact H.
    + intros H. injection H as <-. right. right. exists r. split; [reflexivity|]. split; assumption.
  - destruct (catches [TypeError; ValueError; OSError] e') eqn:C.
    + intros H. left. exact H.
    + intros H. injection H as <-. right. left. split; [reflexivity | exact C].
Qed.

(** *** Personnel resolution *)







(** *** [get_mission_data] *)

Lemma first_dict_candidate_found (md : mission_dir) (l : list string) (d : dict) :
  first_dict_candidate md l = Ok d -> d <> [] ->
  exists c, In c l /\ md_load md c = Ok (Some (JObj d)).
Proof.
  induction l as [|c t IH]; simpl; [intros H Hd; injection H as <-; contradiction|].
  destruct (md_load md c) as [o|e] eqn:L; cbn [bind]; [|discriminate].
  intros H Hd. destruct o as [[| | | | | |kv]|];
    try (destruct (IH H Hd) as [c' [Hc' Lc']]; exists c'; split; [right|]; assumption).
  injection H as ->. exists c. split; [left; reflexivity | exact L].
Qed.

Lemma mtimes_snd (md : mission_dir) (l : list string) :
  forall k, mtimes md l = Ok k -> map snd k = l.
Proof.
  induction l as [|f t IH]; intros k H; simpl in H; [injection H as <-; reflexivity|].
  destruct (md_mtime md f); cbn [bind] in H; [|discriminate].
  destruct (mtimes md t) as [r|e] eqn:M; cbn [bind] in H; [|discriminate].
  injection H as <-. simpl. rewrite (IH r eq_refl). reflexivity.
Qed.

Lemma sort_by_mtime_desc_incl (md : mission_dir) (l out : list string) :
  sort_by_mtime_desc md l = Ok out -> forall x, In x out -> In x l.
Proof.
  unfold sort_by_mtime_desc, try_except.
  destruct (mtimes md l) as [k|e] eqn:M; cbn [bind].
  - intros H. injection H as <-. intros x Hx.
    rewrite <- (mtimes_snd md l k M). unfold sort_by_key_desc in Hx.
    apply in_map_iff in Hx as [p [<- Hp]]. apply in_map.
    exact (Permutation_in _ (py_sort_perm _ _) Hp).
  - destruct (catches [OSError] e); [|discriminate]. intros H. injection H as <-. auto.
Qed.

(** X17.  A non-empty result of [get_mission_data] is always the dict
    payload of one of the MissionData candidate files; with no MissionData
    folder the result is [{}]. *)
Theorem mission_data_from_candidate (md : mission_dir) (report d : dict)
  (H : get_mission_data md report = Ok d) (Hd : d <> []) :
  md_exists md = true
  /\ exists c, In c (md_candidates md) /\ md_load md c = Ok (Some (JObj d)).
Proof.
  unfold get_mission_data in H. cbv zeta in H.
  destruct (md_exists md); cbn [negb] in H; [|injection H as <-; contradiction].
  split; [reflexivity|].
  destruct (py_or (py_or (dict_get report "reportPilotName" JNull) (JStr "")) (JStr ""))
    as [| | | |pn| |]; cbn [bind] in H; try discriminate.
  destruct (is_valid_date_string _) as [[|]|e]; cbn [bind negb] in H;
    [|injection H as <-; contradiction | discriminate].
  destruct (py_or (dict_get report "date" (JStr "")) (JStr "")) as [| | | |ds| |];
    try (injection H as <-; contradiction).
  destruct (strptime_ymd ds) as [ymd|]; [|injection H as <-; contradiction].
  destruct (md_candidates md) as [|c0 cs] eqn:C; [injection H as <-; contradiction|].
  destruct (find_mission_file_matches (c0 :: cs) (clean_pilot_name pn) (strftime_dashed ymd))
    as [|m ms] eqn:F; [injection H as <-; contradiction|].
  destruct (sort_by_mtime_desc md (m :: ms)) as [sorted|e] eqn:S; cbn [bind] in H; [|discriminate].
  destruct (first_dict_candidate_found md sorted d H Hd) as [c [Hc Lc]].
  exists c. split; [|exact Lc].
  apply (sort_by_mtime_desc_incl md _ _ S) in Hc. rewrite <- F in Hc.
  destruct (find_matches_filter (c0 :: cs) (clean_pilot_name pn) (strftime_dashed ymd)) as [g Hg].
  rewrite Hg in Hc. apply filter_In in Hc as [Hc _]. exact Hc.
Qed.

Lemma mission_data_from_candidate_witness :
  get_mission_data schmidt_dir schmidt_report = Ok [("missionDescription", JStr "Schmidt A")]
  /\ [("missionDescription", JStr "Schmidt A")] <> []
  /\ md_exists schmidt_dir = true
  /\ exists c, In c (md_candidates schmidt_dir)
       /\ md_load schmidt_dir c = Ok (Some (JObj [("missionDescription", JStr "Schmidt A")])).
Proof.
  split; [vm_compute; reflexivity|]. split; [discriminate|].
  apply (mission_data_from_candidate schmidt_dir schmidt_report); [vm_compute; reflexivity | discriminate].
Defined.
